(** * TalentScout hiring assistant

    A shallow embedding of the conversation engine ([chatbot.py]), the
    validators ([validators.py]), the prompt templates ([prompts.py]), the
    configuration constants ([config.py]), the candidate record store
    ([data_handler.py]) and the session functions of the page ([app.py]),
    followed by the properties of the engine, of the store and of the page.

    Modelling conventions.
    - A Python [str] is a [string]; a character is an 8-bit code.  The
      character classes ([isspace], [isdigit], [isalpha]), the case
      conversions and the lengths are those of Python on ASCII text; codes
      above 127 are passed through unchanged and belong to no class.  A
      property that depends on them is stated for ASCII text
      ([PyStr.isascii]): beyond ASCII, Python knows further blanks, digits
      and letters, and counts characters where the model counts codes.
    - A method of [HiringAssistantChatbot] is a computation in the monad [M]:
      it reads and writes the fields of the object, may raise, and records the
      assignments made to [self.state].
    - The completion service and Python's [float] are interfaces
      ([Runtime]): nothing is assumed about what they return. *)

From Stdlib Require Import String Ascii List ZArith Lia Bool.
From stdpp Require Import base option gmap strings list.
Import ListNotations.

Local Open Scope string_scope.
Local Set Warnings "-register-all".

(** ** Python string operations *)

Module PyStr.

Definition code (c : ascii) : nat := nat_of_ascii c.

Definition between (lo hi : nat) (c : ascii) : bool :=
  Nat.leb lo (code c) && Nat.leb (code c) hi.

(** [str.isspace] on one ASCII character: TAB, LF, VT, FF, CR, the four
    separators FS, GS, RS, US, and the blank.  On ASCII text the class [\s]
    of [re] and the whitespace of [str.strip] and [str.split] are the same
    set; the properties that depend on it are stated for ASCII text. *)
Definition is_space (c : ascii) : bool :=
  between 9 13 c || between 28 32 c.

(** [str.isdigit] and the class [\d] of [re] on one ASCII character. *)
Definition is_digit (c : ascii) : bool := between 48 57 c.

Definition is_upper (c : ascii) : bool := between 65 90 c.

Definition is_lower (c : ascii) : bool := between 97 122 c.

(** [str.isalpha] on one ASCII character. *)
Definition is_alpha (c : ascii) : bool := is_upper c || is_lower c.

Definition lower_char (c : ascii) : ascii :=
  if is_upper c then ascii_of_nat (code c + 32) else c.

Definition upper_char (c : ascii) : ascii :=
  if is_lower c then ascii_of_nat (code c - 32) else c.

Definition eqc (a b : ascii) : bool := Ascii.eqb a b.

Fixpoint smap (f : ascii -> ascii) (s : string) : string :=
  match s with
  | EmptyString => EmptyString
  | String a s' => String (f a) (smap f s')
  end.

Fixpoint sfilter (p : ascii -> bool) (s : string) : string :=
  match s with
  | EmptyString => EmptyString
  | String a s' => if p a then String a (sfilter p s') else sfilter p s'
  end.

Fixpoint sall (p : ascii -> bool) (s : string) : bool :=
  match s with
  | EmptyString => true
  | String a s' => p a && sall p s'
  end.

Fixpoint sany (p : ascii -> bool) (s : string) : bool :=
  match s with
  | EmptyString => false
  | String a s' => p a || sany p s'
  end.

Fixpoint drop_while (p : ascii -> bool) (s : string) : string :=
  match s with
  | EmptyString => EmptyString
  | String a s' => if p a then drop_while p s' else s
  end.

Fixpoint srev_onto (acc s : string) : string :=
  match s with
  | EmptyString => acc
  | String a s' => srev_onto (String a acc) s'
  end.

Definition srev (s : string) : string := srev_onto EmptyString s.

(** The longest prefix of [s] whose characters satisfy [p], and the rest. *)
Fixpoint span (p : ascii -> bool) (s : string) : string * string :=
match s with
| EmptyString => (EmptyString, EmptyString)
| String a s' =>
    if p a then let '(h, t) := span p s' in (String a h, t)
    else (EmptyString, s)
end.

(** [bool(s)]: a string is truthy when it is not empty. *)
Definition nonempty (s : string) : bool :=
  match s with EmptyString => false | String _ _ => true end.

(** [len(s)]: on ASCII text the number of codes is the number of
    characters. *)
Definition len (s : string) : nat := String.length s.

Definition lower (s : string) : string := smap lower_char s.

Definition upper (s : string) : string := smap upper_char s.

Definition lstrip (s : string) : string := drop_while is_space s.

Definition rstrip (s : string) : string := srev (drop_while is_space (srev s)).

Definition strip (s : string) : string := rstrip (lstrip s).

(** [s.isdigit()]: at least one character, and all of them digits. *)
Definition isdigit (s : string) : bool := nonempty s && sall is_digit s.

(** [s.isascii()]. *)
Definition isascii (s : string) : bool :=
  sall (fun c => Nat.ltb (code c) 128) s.

Fixpoint startswith (p s : string) : bool :=
  match p, s with
  | EmptyString, _ => true
  | String a p', String b s' => eqc a b && startswith p' s'
  | String _ _, EmptyString => false
  end.

Definition endswith (p s : string) : bool := startswith (srev p) (srev s).

(** [p in s]: [p] occurs in [s] as a contiguous run. *)
Fixpoint contains (p s : string) : bool :=
  startswith p s ||
  match s with
  | EmptyString => false
  | String _ s' => contains p s'
  end.

(** [s.split(c)] for a one-character separator: never empty. *)
Fixpoint split (c : ascii) (s : string) : list string :=
  match s with
  | EmptyString => [EmptyString]
  | String a s' =>
      if eqc a c then EmptyString :: split c s'
      else match split c s' with
           | h :: t => String a h :: t
           | [] => [String a EmptyString]
           end
  end.

(** [s.split(c, 1)]: cut at the first separator only. *)
Fixpoint split1 (c : ascii) (s : string) : list string :=
  match s with
  | EmptyString => [EmptyString]
  | String a s' =>
      if eqc a c then [EmptyString; s']
      else match split1 c s' with
           | h :: t => String a h :: t
           | [] => [String a EmptyString]
           end
  end.

(** [s.split()]: the maximal runs of non-whitespace; [cur] is the run being
    read. *)
Fixpoint words_from (cur s : string) : list string :=
  match s with
  | EmptyString => if nonempty cur then [cur] else []
  | String a s' =>
      if is_space a
      then (if nonempty cur then cur :: words_from EmptyString s'
            else words_from EmptyString s')
      else words_from (cur ++ String a EmptyString) s'
  end.

Definition words (s : string) : list string := words_from EmptyString s.

(** [s.replace(a, b)] for one-character [a] and [b]. *)
Definition replace (a b : ascii) (s : string) : string :=
  smap (fun c => if eqc c a then b else c) s.

(** [s[:n]]. *)
Fixpoint take (n : nat) (s : string) : string :=
  match n, s with
  | S n', String a s' => String a (take n' s')
  | _, _ => EmptyString
  end.

(** [s[n:]]. *)
Fixpoint drop (n : nat) (s : string) : string :=
  match n, s with
  | S n', String _ s' => drop n' s'
  | _, _ => s
  end.

(** [str(n)] for a natural number. *)
Definition digit_char (d : nat) : ascii := ascii_of_nat (48 + d).

Fixpoint decimal_fuel (fuel n : nat) (acc : string) : string :=
  match fuel with
  | O => acc
  | S fuel' =>
      let acc' := String (digit_char (n mod 10)) acc in
      if Nat.ltb n 10 then acc' else decimal_fuel fuel' (n / 10) acc'
  end.

Definition of_nat (n : nat) : string := decimal_fuel (S n) n EmptyString.

Definition of_Z (z : Z) : string :=
  if (z <? 0)%Z then String "-" (of_nat (Z.to_nat (- z)))
  else of_nat (Z.to_nat z).

Definition nl : string := String (ascii_of_nat 10) EmptyString.

Definition dquote : string := String (ascii_of_nat 34) EmptyString.

Definition concat (l : list string) : string :=
  fold_right String.append EmptyString l.

End PyStr.


(** ** Exceptions *)

(** The exceptions the program can raise, and the outcome of a call. *)
Inductive Exn : Type :=
| KeyError (key : string)
| IndexError
| AttributeError
| TypeError
| ProviderError
| JSONDecodeError
| OSError.

Inductive Result (A : Type) : Type :=
| Ok (a : A)
| Raise (e : Exn).

Arguments Ok {A} a.
Arguments Raise {A} e.

(** ** Data model *)

(** An entry of [technical_questions]: [{"technology": ..., "question": ...}]. *)
Record Question : Type := mkQuestion {
  technology : string;
  question : string
}.

(** An entry of [candidate_data['technical_qa']].  The keys [evaluation] and
    [score] are absent from an entry stored after a failed evaluation. *)
Record QA : Type := mkQA {
  qa_technology : string;
  qa_question : string;
  qa_answer : string;
  qa_evaluation : option string;
  qa_score : option string
}.

(** The values the engine and the store keep in a dictionary: a string, or a
    list of question-and-answer entries ([[]] is [VList []]). *)
Inductive Value : Type :=
| VStr (s : string)
| VList (l : list QA).

(** The states of [config.ConversationState]. *)
Inductive ConversationState : Type :=
| GREETING
| COLLECT_NAME
| COLLECT_EMAIL
| COLLECT_PHONE
| COLLECT_EXPERIENCE
| COLLECT_POSITION
| COLLECT_LOCATION
| COLLECT_TECH_STACK
| ASK_TECHNICAL_QUESTIONS
| CONCLUSION
| ENDED.

(** ** Interfaces of the runtime

    Python's [float], the settings read from the environment by [config.py],
    and the completion service.  [send_message log prompt] is the reply of
    the chat session to [prompt] after the calls of [log]; [None] stands for
    a call that raises. *)
Class Runtime : Type := {
  float : Type;
  float_of_str : string -> option float;
  float_of_int : Z -> float;
  float_add : float -> float -> float;
  float_div : float -> float -> float;
  float_leb : float -> float -> bool;
  float_ltb : float -> float -> bool;
  float_str : float -> string;
  float_fmt1 : float -> string;
  list_str : list QA -> string;
  MAX_TECHNICAL_QUESTIONS : Z;
  MIN_TECHNICAL_QUESTIONS : Z;
  send_message : list (string * option string) -> string -> option string
}.

(** A number: [int] or [float]. *)
Inductive Num `{Runtime} : Type :=
| NInt (z : Z)
| NFloat (x : float).

(** ** config.py *)

Module Config.

Definition EXIT_KEYWORDS : list string :=
  ["exit"; "quit"; "bye"; "goodbye"; "stop"; "end";
   "cancel"; "leave"; "close"; "terminate"].

End Config.

(** ** validators.py *)

Module Validators.

(** The class [[a-zA-Z0-9._%+-]] of the local part. *)
Definition local_char (c : ascii) : bool :=
  PyStr.is_alpha c || PyStr.is_digit c ||
  PyStr.eqc c "." || PyStr.eqc c "_" || PyStr.eqc c "%" ||
  PyStr.eqc c "+" || PyStr.eqc c "-".

(** The class [[a-zA-Z0-9.-]] of the domain. *)
Definition domain_char (c : ascii) : bool :=
  PyStr.is_alpha c || PyStr.is_digit c || PyStr.eqc c "." || PyStr.eqc c "-".

(** [[a-zA-Z0-9.-]+\.[a-zA-Z]{2,}] against a whole string, read from its
    end: the letters after the last dot, the dot, a non-empty domain. *)
Definition domain_match (r : string) : bool :=
  let '(tld, rest) := PyStr.span PyStr.is_alpha (PyStr.srev r) in
  Nat.leb 2 (PyStr.len tld) &&
  match rest with
  | String dot dom =>
      PyStr.eqc dot "." && PyStr.nonempty dom && PyStr.sall domain_char dom
  | EmptyString => false
  end.

(** The pattern up to its final [$], against a whole string.  No character
    of the local part is [@], so the local part is the longest run of
    [local_char]. *)
Definition email_core (s : string) : bool :=
  let '(loc, rest) := PyStr.span local_char s in
  PyStr.nonempty loc &&
  match rest with
  | String at_sign r => PyStr.eqc at_sign "@" && domain_match r
  | EmptyString => false
  end.

(** [re.match(pattern, s)]: [$] also matches before a newline that ends the
    string. *)
Definition email_pattern (s : string) : bool :=
  email_core s ||
  match PyStr.srev s with
  | String last r => PyStr.eqc last "010" && email_core (PyStr.srev r)
  | EmptyString => false
  end.

Definition validate_email (email : string) : bool * string :=
  if negb (PyStr.nonempty email) then (false, "Email address is required.")
  else if email_pattern (PyStr.strip email) then (true, "")
  else (false, "Please provide a valid email address (e.g., name@example.com).").

(** The class [[\s\-\(\)\+]] removed by [re.sub]. *)
Definition phone_separator (c : ascii) : bool :=
  PyStr.is_space c || PyStr.eqc c "-" || PyStr.eqc c "(" ||
  PyStr.eqc c ")" || PyStr.eqc c "+".

Definition validate_phone (phone : string) : bool * string :=
  if negb (PyStr.nonempty phone) then (false, "Phone number is required.")
  else
    let cleaned := PyStr.sfilter (fun c => negb (phone_separator c)) phone in
    if PyStr.isdigit cleaned &&
       (Nat.leb 10 (PyStr.len cleaned) && Nat.leb (PyStr.len cleaned) 15)
    then (true, "")
    else (false, "Please provide a valid phone number (10-15 digits).").

Definition validate_experience `{Runtime} (experience : string) : bool * string :=
  if negb (PyStr.nonempty experience)
  then (false, "Years of experience is required.")
  else
    match float_of_str experience with
    | Some years =>
        if float_leb (float_of_int 0) years && float_leb years (float_of_int 50)
        then (true, "")
        else (false, "Please provide a valid number of years (0-50).")
    | None => (false, "Please provide a valid number for years of experience.")
    end.

Definition validate_name (name : string) : bool * string :=
  if negb (PyStr.nonempty name) || Nat.ltb (PyStr.len (PyStr.strip name)) 2
  then (false, "Please provide your full name (at least 2 characters).")
  else (true, "").

Definition validate_non_empty (value field_name : string) : bool * string :=
  if negb (PyStr.nonempty value) || Nat.eqb (PyStr.len (PyStr.strip value)) 0
  then (false, field_name ++ " is required.")
  else (true, "").

End Validators.

(** ** prompts.py *)

Module Prompts.

(** [str(v)] and [f"{v}"] for a stored value. *)
Definition py_str `{Runtime} (v : Value) : string :=
  match v with
  | VStr s => s
  | VList l => list_str l
  end.

Definition num_str `{Runtime} (n : Num) : string :=
  match n with
  | NInt z => PyStr.of_Z z
  | NFloat x => float_str x
  end.

(** [n < k] and [n > k] for an integer literal [k]. *)
Definition num_lt `{Runtime} (n : Num) (k : Z) : bool :=
  match n with
  | NInt z => (z <? k)%Z
  | NFloat x => float_ltb x (float_of_int k)
  end.

Definition num_gt `{Runtime} (n : Num) (k : Z) : bool :=
  match n with
  | NInt z => (k <? z)%Z
  | NFloat x => float_ltb (float_of_int k) x
  end.

Definition get_greeting_prompt : string :=
  "Greet the candidate warmly and introduce yourself as TalentScout's Hiring Assistant. 
Briefly explain that you'll be conducting an initial screening by:
1. Gathering some basic information
2. Asking a few technical questions based on their skills

Keep it brief, professional, and welcoming. Then ask for their full name.".

(** The dictionary of prompts is built on every call, so the entry for
    [email] is evaluated whatever [field_name] is: [split()[0]] raises on a
    non-empty [previous_response] without a word. *)
Definition get_info_collection_prompt (field_name previous_response : string)
  : Result string :=
  let greet :=
    if PyStr.nonempty previous_response
    then match PyStr.words previous_response with
         | w :: _ => Ok (", " ++ w)
         | [] => Raise IndexError
         end
    else Ok "" in
  match greet with
  | Raise e => Raise e
  | Ok greet =>
      let prompts : gmap string string :=
        <["tech_stack" := "Now, please tell me about your tech stack. What programming languages, frameworks, databases, and tools are you proficient in?"]>
        (<["location" := "Perfect! What is your current location (city/region)?"]>
        (<["position" := "Thank you! What position(s) are you interested in applying for?"]>
        (<["experience" := "Excellent! How many years of professional experience do you have in the tech industry?"]>
        (<["phone" := "Great! What's the best phone number to reach you?"]>
        (<["email" := PyStr.concat
        ["Thank you";
         greet;
         "! Could you please provide your email address?"]]> ∅))))) in
      Ok (default ("Please provide your " ++ field_name ++ ".")
            (prompts !! field_name))
  end.

Definition get_ai_question_generation_prompt `{Runtime}
    (tech_stack : string) (experience_years : Num) (num_questions : Z) : string :=
  let difficulty :=
    if num_lt experience_years 2
    then "junior-level (basic concepts and fundamentals)"
    else if num_gt experience_years 5
    then "senior-level (advanced concepts, architecture, best practices)"
    else "intermediate" in
  PyStr.concat
    ["Based on the candidate's tech stack: ";
     PyStr.dquote;
     tech_stack;
     PyStr.dquote;
     " and ";
     num_str experience_years;
     " years of experience, generate exactly ";
     PyStr.of_Z num_questions;
     " technical interview questions.

Requirements:
1. Questions should be ";
     difficulty;
     "
2. Cover different technologies mentioned in their tech stack
3. Questions should be practical and assess real-world knowledge
4. Include a mix of conceptual and practical questions
5. Each question should be clear and specific

Format your response as a numbered list with ONLY the questions, one per line. Example:
1. [First question here]
2. [Second question here]
etc.

Generate ";
     PyStr.of_Z num_questions;
     " questions now:"].

Definition get_answer_evaluation_prompt (question answer tech_stack : string)
  : string :=
  PyStr.concat
    ["You are evaluating a technical interview answer. 

Question: ";
     question;
     "

Candidate's Tech Stack: ";
     tech_stack;
     "

Candidate's Answer: ";
     answer;
     "

Evaluate this answer and provide:
1. A brief acknowledgment (1 sentence, professional and encouraging)
2. A quality score from 1-10
3. Key strengths (if any)
4. Areas for improvement (if any)

Keep the feedback professional and constructive. Format as:
ACKNOWLEDGMENT: [Your acknowledgment]
SCORE: [1-10]
STRENGTHS: [Brief points or ";
     PyStr.dquote;
     "N/A";
     PyStr.dquote;
     "]
IMPROVEMENTS: [Brief points or ";
     PyStr.dquote;
     "N/A";
     PyStr.dquote;
     "]"].

(** The lines added to [qa_summary] for the entry numbered [i]. *)
Definition qa_summary_entry (i : nat) (qa : QA) : string :=
  let score := default "N/A" (qa_score qa) in
  PyStr.concat
    ["
Q";
     PyStr.of_nat i;
     ": ";
     qa_question qa;
     "
";
     "Answer: ";
     PyStr.take 100 (qa_answer qa);
     "...
";
     "Score: ";
     score;
     "
"].

Fixpoint qa_summary_from (i : nat) (l : list QA) : string :=
  match l with
  | [] => ""
  | qa :: l' => qa_summary_entry i qa ++ qa_summary_from (S i) l'
  end.

(** [qa_list] is what [candidate_data.get('technical_qa', [])] returned.
    When it is a string the loop runs over its characters, and [qa.get]
    raises on the first one. *)
Definition get_screening_decision_prompt `{Runtime}
    (candidate_data : gmap string Value) (qa_list : Value) : Result string :=
  let tech_stack := default (VStr "N/A") (candidate_data !! "tech_stack") in
  let experience := default (VStr "N/A") (candidate_data !! "experience") in
  let position := default (VStr "N/A") (candidate_data !! "position") in
  let summary :=
    match qa_list with
    | VList l => Ok (qa_summary_from 1 l)
    | VStr s => if PyStr.nonempty s then Raise AttributeError else Ok ""
    end in
  match summary with
  | Raise e => Raise e
  | Ok qa_summary =>
      Ok (PyStr.concat
      ["You are conducting a technical screening for a candidate. Based on their performance, decide if they should be SCREENED IN (pass to HR for further evaluation) or SCREENED OUT (rejected).

**Candidate Information:**
- Position Applied: ";
       py_str position;
       "
- Tech Stack: ";
       py_str tech_stack;
       "
- Years of Experience: ";
       py_str experience;
       "

**Technical Assessment Performance:**
";
       qa_summary;
       "

**Decision Criteria:**
- SCREEN IN: Candidate shows good understanding of technologies, scores mostly 6+ or demonstrates potential
- SCREEN OUT: Candidate shows poor understanding, scores mostly below 5, or completely irrelevant answers

**Your Decision:**
Provide your decision in this EXACT format:
DECISION: [SCREEN IN or SCREEN OUT]
REASONING: [Brief 1-2 sentence explanation]
MESSAGE: [A professional message to the candidate - encouraging if SCREEN IN, polite but clear if SCREEN OUT]"])
  end.

Definition get_technical_question_intro (tech_stack : string) : string :=
  PyStr.concat
    ["Great! Thank you for sharing your information. 

Based on your tech stack (";
     tech_stack;
     ") and experience level, I'm now going to ask you some tailored technical questions to assess your expertise. These questions are specifically designed for your background.

Please answer to the best of your ability. Let me prepare your first question..."].

Definition get_technical_question_prompt
    (question technology : string) (question_number total_questions : nat)
  : string :=
  PyStr.concat
    ["**Question ";
     PyStr.of_nat question_number;
     " of ";
     PyStr.of_nat total_questions;
     "** (";
     technology;
     "):

";
     question].

Definition get_question_acknowledgment (remaining : nat) : string :=
  if Nat.ltb 0 remaining
  then "Thank you for your answer! Let's move to the next question."
  else "Thank you for your thoughtful answers!".

Definition get_conclusion_prompt (candidate_name decision message : string)
  : string :=
  if PyStr.contains "SCREEN IN" (PyStr.upper decision)
  then
  PyStr.concat
    ["ðŸŽ‰ **Congratulations, ";
     candidate_name;
     "!**

";
     message;
     "

Our HR team will review your profile and contact you within 2-3 business days to schedule the next round of interviews.

Thank you for your time and thoughtful responses. We're excited about the possibility of having you join our team!

**What happens next:**
âœ… HR team reviews your screening results
âœ… You'll receive an email/call for the next interview round
âœ… Keep an eye on your inbox!

Good luck! ðŸš€"]
  else
  PyStr.concat
    ["Thank you, ";
     candidate_name;
     ".

";
     message;
     "

We appreciate the time you took to complete this screening. While you haven't met the criteria for this particular role at this time, we encourage you to:
- Continue building your skills
- Apply for other positions that match your experience
- Reapply in the future as you gain more experience

We wish you all the best in your job search!

**The conversation has ended.** You may close this window."].

Definition get_fallback_prompt : string :=
  "I didn't quite understand that. Could you please rephrase or provide the requested information? 
I'm here to help you through the screening process.".

Definition get_exit_confirmation : string :=
  "I understand you'd like to end the session. Thank you for your time! 
If you'd like to complete the screening process later, feel free to start a new conversation. 
Have a great day!".

End Prompts.

(** ** chatbot.py *)

Module Chatbot.

(** The fields of a [HiringAssistantChatbot].  [chat] is the chat session,
    seen through the calls made on it so far, oldest first, with the reply
    of each ([None] for a call that raised). *)
Record HiringAssistantChatbot : Type := mkChatbot {
  chat : list (string * option string);
  state : ConversationState;
  candidate_data : gmap string Value;
  technical_questions : list Question;
  current_question_index : nat
}.

(** A method body: from the object before the call to the value returned or
    the exception raised, the object after the call, and the states assigned
    to [self.state] on the way, in order. *)
Definition M (A : Type) : Type :=
  HiringAssistantChatbot ->
  Result A * HiringAssistantChatbot * list ConversationState.

Definition ret {A : Type} (a : A) : M A :=
  fun self => (Ok a, self, []).

Definition raise {A : Type} (e : Exn) : M A :=
  fun self => (Raise e, self, []).

Definition bind {A B : Type} (c : M A) (k : A -> M B) : M B :=
  fun self =>
    match c self with
    | (Ok a, self1, w1) =>
        let '(r, self2, w2) := k a self1 in (r, self2, (w1 ++ w2)%list)
    | (Raise e, self1, w1) => (Raise e, self1, w1)
    end.

Notation "x <-- c ;; k" := (bind c (fun x => k))
  (at level 100, c at next level, right associativity).
Notation "c ;;; k" := (bind c (fun _ => k))
  (at level 100, right associativity).

(** [try: body / except Exception: handler].  What [body] did to the object
    before it raised stays done. *)
Definition try_except {A : Type} (body handler : M A) : M A :=
  fun self =>
    match body self with
    | (Raise _, self1, w1) =>
        let '(r, self2, w2) := handler self1 in (r, self2, (w1 ++ w2)%list)
    | done => done
    end.

Definition lift {A : Type} (r : Result A) : M A :=
  fun self => (r, self, []).

Definition get_self : M HiringAssistantChatbot :=
  fun self => (Ok self, self, []).

(** [self.state = st]. *)
Definition set_state (st : ConversationState) : M unit :=
  fun self =>
    (Ok tt,
     mkChatbot (chat self) st (candidate_data self)
               (technical_questions self) (current_question_index self),
     [st]).

(** [self.candidate_data[key] = v]. *)
Definition set_candidate_data (key : string) (v : Value) : M unit :=
  fun self =>
    (Ok tt,
     mkChatbot (chat self) (state self) (<[key := v]> (candidate_data self))
               (technical_questions self) (current_question_index self),
     []).

(** [self.technical_questions = qs]. *)
Definition set_technical_questions (qs : list Question) : M unit :=
  fun self =>
    (Ok tt,
     mkChatbot (chat self) (state self) (candidate_data self)
               qs (current_question_index self),
     []).

(** [self.current_question_index = i]. *)
Definition set_current_question_index (i : nat) : M unit :=
  fun self =>
    (Ok tt,
     mkChatbot (chat self) (state self) (candidate_data self)
               (technical_questions self) i,
     []).

Section Engine.

Context `{Runtime}.

(** [self.chat.send_message(prompt).text]. *)
Definition chat_send (prompt : string) : M string :=
  fun self =>
    let reply := send_message (chat self) prompt in
    (match reply with Some text => Ok text | None => Raise ProviderError end,
     mkChatbot (chat self ++ [(prompt, reply)])%list (state self)
               (candidate_data self) (technical_questions self)
               (current_question_index self),
     []).

(** [self.candidate_data['technical_qa'].append(entry)]. *)
Definition append_technical_qa (entry : QA) : M unit :=
  self <-- get_self ;;
  match candidate_data self !! "technical_qa" with
  | None => raise (KeyError "technical_qa")
  | Some (VStr _) => raise AttributeError
  | Some (VList l) => set_candidate_data "technical_qa" (VList (l ++ [entry])%list)
  end.

(** [self.candidate_data['technical_qa']], read where the program runs over
    it as a list. *)
Definition technical_qa_list : M (list QA) :=
  self <-- get_self ;;
  match candidate_data self !! "technical_qa" with
  | None => raise (KeyError "technical_qa")
  | Some (VStr _) => raise TypeError
  | Some (VList l) => ret l
  end.

Definition reset : M unit :=
  fun self => (Ok tt, mkChatbot [] GREETING ∅ [] 0, [GREETING]).

Definition check_exit_intent (message : string) : bool :=
  let message_lower := PyStr.strip (PyStr.lower message) in
  existsb (fun keyword => PyStr.contains keyword message_lower)
          Config.EXIT_KEYWORDS.

Definition get_greeting : M string :=
  response <-- chat_send Prompts.get_greeting_prompt ;;
  set_state COLLECT_NAME ;;;
  ret response.

Definition _collect_name (name : string) : M string :=
  let '(is_valid, error_msg) := Validators.validate_name name in
  if negb is_valid then ret error_msg
  else
    set_candidate_data "name" (VStr (PyStr.strip name)) ;;;
    set_state COLLECT_EMAIL ;;;
    lift (Prompts.get_info_collection_prompt "email" name).

Definition _collect_email (email : string) : M string :=
  let '(is_valid, error_msg) := Validators.validate_email email in
  if negb is_valid then ret error_msg
  else
    set_candidate_data "email" (VStr (PyStr.strip email)) ;;;
    set_state COLLECT_PHONE ;;;
    lift (Prompts.get_info_collection_prompt "phone" "").

Definition _collect_phone (phone : string) : M string :=
  let '(is_valid, error_msg) := Validators.validate_phone phone in
  if negb is_valid then ret error_msg
  else
    set_candidate_data "phone" (VStr (PyStr.strip phone)) ;;;
    set_state COLLECT_EXPERIENCE ;;;
    lift (Prompts.get_info_collection_prompt "experience" "").

Definition _collect_experience (experience : string) : M string :=
  let '(is_valid, error_msg) := Validators.validate_experience experience in
  if negb is_valid then ret error_msg
  else
    set_candidate_data "experience" (VStr (PyStr.strip experience)) ;;;
    set_state COLLECT_POSITION ;;;
    lift (Prompts.get_info_collection_prompt "position" "").

Definition _collect_position (position : string) : M string :=
  let '(is_valid, error_msg) :=
    Validators.validate_non_empty position "Position" in
  if negb is_valid then ret error_msg
  else if Nat.ltb (PyStr.len (PyStr.strip position)) 3
  then ret "Please provide a valid position title (e.g., Software Engineer, Data Scientist, etc.)."
  else
    set_candidate_data "position" (VStr (PyStr.strip position)) ;;;
    set_state COLLECT_LOCATION ;;;
    lift (Prompts.get_info_collection_prompt "location" "").

Definition _collect_location (location : string) : M string :=
  let '(is_valid, error_msg) :=
    Validators.validate_non_empty location "Location" in
  if negb is_valid then ret error_msg
  else if Nat.ltb (PyStr.len (PyStr.strip location)) 2
  then ret "Please provide a valid location (city, state, or country)."
  else
    set_candidate_data "location" (VStr (PyStr.strip location)) ;;;
    set_state COLLECT_TECH_STACK ;;;
    lift (Prompts.get_info_collection_prompt "tech_stack" "").

(** The class [[\d\.\)\-\*\s]] of the numbering removed from a line. *)
Definition numbering_char (c : ascii) : bool :=
  PyStr.is_digit c || PyStr.eqc c "." || PyStr.eqc c ")" ||
  PyStr.eqc c "-" || PyStr.eqc c "*" || PyStr.is_space c.

(** [line[0].isdigit() or line.startswith('-') or line.startswith('*')]. *)
Definition numbered (line : string) : bool :=
  match line with
  | String c _ =>
      PyStr.is_digit c || PyStr.startswith "-" line || PyStr.startswith "*" line
  | EmptyString => false
  end.

(** The body of the loop over the lines of the reply: the question added to
    [questions_list] for this line, if any. *)
Definition parse_question_line (raw : string) : option string :=
  let line := PyStr.strip raw in
  if PyStr.nonempty line && numbered line then
    let question_text := PyStr.strip (PyStr.drop_while numbering_char line) in
    if PyStr.nonempty question_text && Nat.ltb 10 (PyStr.len question_text)
    then Some question_text
    else None
  else None.

Definition parse_questions (generated_text : string) : list string :=
  fold_left
    (fun questions_list line =>
       match parse_question_line line with
       | Some question_text => (questions_list ++ [question_text])%list
       | None => questions_list
       end)
    (PyStr.split "010" generated_text) [].

(** [l[:n]]: a negative bound counts from the end. *)
Definition slice_to {A : Type} (n : Z) (l : list A) : list A :=
  if (n <? 0)%Z then take (length l - Z.to_nat (- n)) l
  else take (Z.to_nat n) l.

Definition fallback_questions : list Question :=
  [mkQuestion "General" "Describe your most challenging technical project and how you solved it.";
   mkQuestion "General" "How do you approach learning new technologies?";
   mkQuestion "General" "Explain your experience with the technologies in your tech stack.";
   mkQuestion "General" "How do you ensure code quality in your projects?";
   mkQuestion "General" "Describe a time when you had to debug a complex issue."].

Definition not_enough_questions : string :=
  "I'm having trouble generating enough questions. Could you please re-enter your tech stack with more details?".

(** [float(self.candidate_data['experience'])], and [0] when that raises. *)
Definition experience_years_of (data : gmap string Value) : Num :=
  match data !! "experience" with
  | Some (VStr s) =>
      match float_of_str s with
      | Some x => NFloat x
      | None => NInt 0
      end
  | _ => NInt 0
  end.

(** The [try] block of [_collect_tech_stack]: [Some text] when it returns
    [text] from the method, [None] when it falls through. *)
Definition generate_questions (question_prompt : string) (num_questions : Z)
  : M (option string) :=
  generated_text <-- chat_send question_prompt ;;
  let questions_list := parse_questions generated_text in
  if (Z.of_nat (length questions_list) <? MIN_TECHNICAL_QUESTIONS)%Z
  then ret (Some not_enough_questions)
  else
    set_technical_questions
      (map (mkQuestion "AI-Generated") (slice_to num_questions questions_list)) ;;;
    ret None.

Definition _collect_tech_stack (tech_stack : string) : M string :=
  let '(is_valid, error_msg) :=
    Validators.validate_non_empty tech_stack "Tech stack" in
  if negb is_valid then ret error_msg
  else
    let tech_stack_clean := PyStr.strip tech_stack in
    if Nat.ltb (PyStr.len tech_stack_clean) 3
    then ret "Please provide a valid tech stack with at least one technology (e.g., Python, JavaScript, React, etc.)."
    else if PyStr.isdigit tech_stack_clean ||
            Nat.eqb (length (PyStr.words tech_stack_clean)) 0
    then ret "Please provide a valid tech stack listing the technologies you work with (e.g., Python, Django, PostgreSQL)."
    else
      let words := PyStr.words (PyStr.replace "," " " tech_stack_clean) in
      if match words with
         | [w] => Nat.leb (PyStr.len w) 2
         | _ => false
         end
      then ret "Please provide your complete tech stack. List the programming languages, frameworks, and tools you're proficient in."
      else if negb (PyStr.sany PyStr.is_alpha tech_stack_clean)
      then ret "Please provide a valid tech stack (e.g., Python, JavaScript, React, AWS, etc.)."
      else
        set_candidate_data "tech_stack" (VStr tech_stack_clean) ;;;
        self <-- get_self ;;
        let experience_years := experience_years_of (candidate_data self) in
        let num_questions := MAX_TECHNICAL_QUESTIONS in
        let question_prompt :=
          Prompts.get_ai_question_generation_prompt
            tech_stack experience_years num_questions in
        returned <--
          try_except
            (generate_questions question_prompt num_questions)
            (set_technical_questions fallback_questions ;;; ret None) ;;
        match returned with
        | Some text => ret text
        | None =>
            set_candidate_data "technical_qa" (VList []) ;;;
            set_candidate_data "evaluation_scores" (VList []) ;;;
            set_state ASK_TECHNICAL_QUESTIONS ;;;
            set_current_question_index 0 ;;;
            let intro := Prompts.get_technical_question_intro tech_stack in
            ret (intro ++ PyStr.nl ++ PyStr.nl ++
                 "**Type 'ready' when you're ready for the first question.**")
        end.

Definition _show_current_question : M string :=
  self <-- get_self ;;
  match technical_questions self !! current_question_index self with
  | Some current_q =>
      ret (Prompts.get_technical_question_prompt
             (question current_q) (technology current_q)
             (current_question_index self + 1)
             (length (technical_questions self)))
  | None => ret "No more questions."
  end.

(** [line.split(':', 1)[1].strip()]. *)
Definition after_colon (line : string) : Result string :=
  match PyStr.split1 ":" line !! 1%nat with
  | Some text => Ok (PyStr.strip text)
  | None => Raise IndexError
  end.

(** The loop over the lines of an evaluation: [(score, acknowledgment)]. *)
Fixpoint parse_evaluation (lines : list string) (score acknowledgment : string)
  : Result (string * string) :=
  match lines with
  | [] => Ok (score, acknowledgment)
  | line :: lines' =>
      if PyStr.contains "SCORE:" (PyStr.upper line) then
        match after_colon line with
        | Ok v => parse_evaluation lines' v acknowledgment
        | Raise e => Raise e
        end
      else if PyStr.contains "ACKNOWLEDGMENT:" (PyStr.upper line) then
        match after_colon line with
        | Ok v => parse_evaluation lines' score v
        | Raise e => Raise e
        end
      else parse_evaluation lines' score acknowledgment
  end.

(** The loop over the lines of a decision:
    [(decision, reasoning, message)]. *)
Fixpoint parse_decision (lines : list string)
    (decision reasoning message : string)
  : Result (string * string * string) :=
  match lines with
  | [] => Ok (decision, reasoning, message)
  | raw :: lines' =>
      let line := PyStr.strip raw in
      if PyStr.contains "DECISION:" (PyStr.upper line) then
        match after_colon line with
        | Ok v => parse_decision lines' v reasoning message
        | Raise e => Raise e
        end
      else if PyStr.contains "REASONING:" (PyStr.upper line) then
        match after_colon line with
        | Ok v => parse_decision lines' decision v message
        | Raise e => Raise e
        end
      else if PyStr.contains "MESSAGE:" (PyStr.upper line) then
        match after_colon line with
        | Ok v => parse_decision lines' decision reasoning v
        | Raise e => Raise e
        end
      else parse_decision lines' decision reasoning message
  end.

Definition conclusion_fallback (candidate_name : string) : string :=
  PyStr.concat
    ["Thank you, ";
     candidate_name;
     ", for completing the screening!

Our HR team will review your responses and contact you if you're selected for the next round.

We appreciate your time and interest in our company. Good luck! ðŸ¤ž"].

Definition _conclude_conversation : M string :=
  self <-- get_self ;;
  let candidate_name :=
    Prompts.py_str (default (VStr "there") (candidate_data self !! "name")) in
  try_except
    (self <-- get_self ;;
     decision_prompt <--
       lift (Prompts.get_screening_decision_prompt
               (candidate_data self)
               (default (VList []) (candidate_data self !! "technical_qa"))) ;;
     decision_text <-- chat_send decision_prompt ;;
     parsed <--
       lift (parse_decision (PyStr.split "010" decision_text)
               "SCREEN OUT" "" "Thank you for your time.") ;;
     let '(decision, reasoning, message) := parsed in
     set_candidate_data "screening_decision" (VStr decision) ;;;
     set_candidate_data "screening_reasoning" (VStr reasoning) ;;;
     let conclusion :=
       Prompts.get_conclusion_prompt candidate_name decision message in
     set_state ENDED ;;;
     ret conclusion)
    (set_state ENDED ;;;
     ret (conclusion_fallback candidate_name)).

(** [total_score] and the value of [total_score / scored_count]. *)
Definition to_float (n : Num) : float :=
  match n with
  | NInt z => float_of_int z
  | NFloat x => x
  end.

(** [float(qa['score'].split('/')[0])]; [None] when the [try] raises: the
    entry has no [score], or the text before the first slash is not a
    number. *)
Definition score_val (qa : QA) : option float :=
  match qa_score qa with
  | Some score => float_of_str (hd "" (PyStr.split "/" score))
  | None => None
  end.

(** The loop over [technical_qa]: [(total_score, scored_count)]. *)
Definition score_totals (entries : list QA) : Num * nat :=
  fold_left
    (fun '(total_score, scored_count) qa =>
       match score_val qa with
       | Some v => (NFloat (float_add (to_float total_score) v), S scored_count)
       | None => (total_score, scored_count)
       end)
    entries (NInt 0, 0).

Definition avg_score (entries : list QA) : Num :=
  let '(total_score, scored_count) := score_totals entries in
  if Nat.ltb 0 scored_count
  then NFloat (float_div (to_float total_score)
                         (float_of_int (Z.of_nat scored_count)))
  else NInt 0.

Definition summary_header : string :=
  PyStr.nl ++ PyStr.nl ++ "ðŸ“Š **Interview Summary:**" ++ PyStr.nl.

Definition interview_summary (entries : list QA) : string :=
  let '(_, scored_count) := score_totals entries in
  let summary := summary_header in
  let summary :=
    summary ++ "- Questions answered: " ++ PyStr.of_nat (length entries) ++ PyStr.nl in
  let summary :=
    if Nat.ltb 0 scored_count
    then summary ++ "- Average score: " ++
         float_fmt1 (to_float (avg_score entries)) ++ "/10" ++ PyStr.nl
    else summary in
  summary ++ PyStr.nl.

(** The [try] block of [_handle_technical_question]. *)
Definition evaluate_answer (current_q : Question) (answer evaluation_prompt : string)
  : M string :=
  evaluation_text <-- chat_send evaluation_prompt ;;
  parsed <--
    lift (parse_evaluation (PyStr.split "010" evaluation_text)
            "N/A" "Thank you for your answer.") ;;
  let '(score, acknowledgment) := parsed in
  append_technical_qa
    (mkQA (technology current_q) (question current_q) (PyStr.strip answer)
          (Some evaluation_text) (Some score)) ;;;
  self <-- get_self ;;
  set_current_question_index (current_question_index self + 1) ;;;
  self <-- get_self ;;
  match technical_questions self !! current_question_index self with
  | Some next_question =>
      let question_prompt :=
        Prompts.get_technical_question_prompt
          (question next_question) (technology next_question)
          (current_question_index self + 1)
          (length (technical_questions self)) in
      ret (acknowledgment ++ PyStr.nl ++ PyStr.nl ++ question_prompt)
  | None =>
      entries <-- technical_qa_list ;;
      set_state CONCLUSION ;;;
      let summary := interview_summary entries in
      conclusion <-- _conclude_conversation ;;
      ret (acknowledgment ++ summary ++ conclusion)
  end.

(** The [except] block of [_handle_technical_question]. *)
Definition record_unevaluated (current_q : Question) (answer : string)
  : M string :=
  append_technical_qa
    (mkQA (technology current_q) (question current_q) (PyStr.strip answer)
          None None) ;;;
  self <-- get_self ;;
  set_current_question_index (current_question_index self + 1) ;;;
  self <-- get_self ;;
  match technical_questions self !! current_question_index self with
  | Some next_question =>
      let remaining :=
        length (technical_questions self) - current_question_index self in
      let ack := Prompts.get_question_acknowledgment remaining in
      let question_prompt :=
        Prompts.get_technical_question_prompt
          (question next_question) (technology next_question)
          (current_question_index self + 1)
          (length (technical_questions self)) in
      ret (ack ++ PyStr.nl ++ PyStr.nl ++ question_prompt)
  | None =>
      set_state CONCLUSION ;;;
      _conclude_conversation
  end.

Definition _handle_technical_question (answer : string) : M string :=
  self <-- get_self ;;
  match technical_questions self !! current_question_index self with
  | None => raise IndexError
  | Some current_q =>
      match candidate_data self !! "tech_stack" with
      | None => raise (KeyError "tech_stack")
      | Some tech_stack =>
          let evaluation_prompt :=
            Prompts.get_answer_evaluation_prompt
              (question current_q) answer (Prompts.py_str tech_stack) in
          try_except
            (evaluate_answer current_q answer evaluation_prompt)
            (record_unevaluated current_q answer)
      end
  end.

Definition ready_words : list string :=
  ["ok"; "yes"; "ready"; "sure"; "continue"; "let's go"; "proceed"].

Definition session_closed : string :=
  "The conversation has ended. Please refresh to start a new screening session.".

(** The states are exactly the eleven of [ConversationState], so the final
    [return prompts.get_fallback_prompt()] of the source is never reached. *)
Definition process_message (user_message : string) : M string :=
  if check_exit_intent user_message then
    set_state ENDED ;;;
    ret Prompts.get_exit_confirmation
  else
    self <-- get_self ;;
    match state self with
    | GREETING => get_greeting
    | COLLECT_NAME => _collect_name user_message
    | COLLECT_EMAIL => _collect_email user_message
    | COLLECT_PHONE => _collect_phone user_message
    | COLLECT_EXPERIENCE => _collect_experience user_message
    | COLLECT_POSITION => _collect_position user_message
    | COLLECT_LOCATION => _collect_location user_message
    | COLLECT_TECH_STACK => _collect_tech_stack user_message
    | ASK_TECHNICAL_QUESTIONS =>
        if Nat.eqb (current_question_index self) 0 &&
           existsb (String.eqb (PyStr.lower (PyStr.strip user_message)))
                   ready_words
        then _show_current_question
        else _handle_technical_question user_message
    | CONCLUSION => _conclude_conversation
    | ENDED => ret session_closed
    end.

Definition get_candidate_data (self : HiringAssistantChatbot)
  : gmap string Value :=
  candidate_data self.

Definition is_conversation_complete (self : HiringAssistantChatbot) : bool :=
  match state self with
  | ENDED => true
  | _ => false
  end.

End Engine.

End Chatbot.

(** ** data_handler.py *)

Module DataHandler.

(** A JSON document, as [json.load] returns it and [json.dump] writes it
    (numbers: the integers). *)
Inductive Json : Type :=
| JNull
| JBool (b : bool)
| JNum (z : Z)
| JStr (s : string)
| JArr (l : list Json)
| JObj (d : gmap string Json).

(** [bool(j)], the test of [if candidate:]. *)
Definition truthy (j : Json) : bool :=
  match j with
  | JNull => false
  | JBool b => b
  | JNum z => negb (z =? 0)%Z
  | JStr s => PyStr.nonempty s
  | JArr l => negb (Nat.eqb (length l) 0)
  | JObj d => negb (Nat.eqb (size d) 0)
  end.

Definition optional_key (key : string) (v : option string)
    (d : gmap string Json) : gmap string Json :=
  match v with
  | Some s => <[key := JStr s]> d
  | None => d
  end.

Definition qa_to_json (qa : QA) : Json :=
  JObj (optional_key "score" (qa_score qa)
         (optional_key "evaluation" (qa_evaluation qa)
           (<["answer" := JStr (qa_answer qa)]>
             (<["question" := JStr (qa_question qa)]>
               (<["technology" := JStr (qa_technology qa)]> ∅))))).

Definition value_to_json (v : Value) : Json :=
  match v with
  | VStr s => JStr s
  | VList l => JArr (map qa_to_json l)
  end.

(** The document [json.dump] writes for a dictionary. *)
Definition dict_to_json (d : gmap string Value) : Json :=
  JObj (value_to_json <$> d).

(** What a file holds: a JSON document, or bytes that [json.load] rejects. *)
Inductive Content : Type :=
| Document (j : Json)
| Garbage.

(** What is at a path: a directory, a file that cannot be opened, a link to
    nothing (listed in its directory, but [os.path.exists] is false), or a
    file and what it holds. *)
Inductive Node : Type :=
| Directory
| Unreadable
| Dangling
| Regular (c : Content).

(** The file system, by full path. *)
Abbreviation FileSystem := (gmap string Node).

(** The objects of the program: the dictionaries, by reference, and the
    file system. *)
Record World : Type := mkWorld {
  heap : gmap nat (gmap string Value);
  fs : FileSystem
}.

(** [datetime.now()]. *)
Record DateTime : Type := mkDateTime {
  year : nat;
  month : nat;
  day : nat;
  hour : nat;
  minute : nat;
  second : nat;
  microsecond : nat
}.

(** [n] in decimal on at least [width] digits. *)
Definition zero_pad (width n : nat) : string :=
  let digits := PyStr.of_nat n in
  PyStr.concat (repeat "0" (width - PyStr.len digits)) ++ digits.

(** [t.isoformat()]. *)
Definition isoformat (t : DateTime) : string :=
  zero_pad 4 (year t) ++ "-" ++ zero_pad 2 (month t) ++ "-" ++
  zero_pad 2 (day t) ++ "T" ++ zero_pad 2 (hour t) ++ ":" ++
  zero_pad 2 (minute t) ++ ":" ++ zero_pad 2 (second t) ++
  (if Nat.eqb (microsecond t) 0 then ""
   else "." ++ zero_pad 6 (microsecond t)).

(** [t.strftime("%Y%m%d_%H%M%S")]. *)
Definition strftime (t : DateTime) : string :=
  zero_pad 4 (year t) ++ zero_pad 2 (month t) ++ zero_pad 2 (day t) ++ "_" ++
  zero_pad 2 (hour t) ++ zero_pad 2 (minute t) ++ zero_pad 2 (second t).

Definition CANDIDATES_DIR : string := "data/candidates".

(** [os.path.join(d, name)]. *)
Definition join (d name : string) : string :=
  if PyStr.startswith "/" name then name
  else if PyStr.endswith "/" d || negb (PyStr.nonempty d) then d ++ name
  else d ++ "/" ++ name.

(** The directory part of a path: what precedes its last slash. *)
Definition dirname (path : string) : string :=
  match PyStr.drop_while (fun c => negb (PyStr.eqc c "/")) (PyStr.srev path) with
  | String _ parent => PyStr.srev parent
  | EmptyString => EmptyString
  end.

(** [open(path, 'w')] followed by the writing of [c]. *)
Definition write_file (path : string) (c : Content) (files : FileSystem)
  : Result FileSystem :=
  match files !! path with
  | Some Directory | Some Unreadable => Raise OSError
  | _ =>
      match files !! dirname path with
      | Some Directory => Ok (<[path := Regular c]> files)
      | _ => Raise OSError
      end
  end.

(** [json.load(open(path, 'r'))]. *)
Definition read_json (path : string) (files : FileSystem) : Result Json :=
  match files !! path with
  | Some (Regular (Document j)) => Ok j
  | Some (Regular Garbage) => Raise JSONDecodeError
  | _ => Raise OSError
  end.

(** The name of [path] in the directory [d], when [path] is directly in it. *)
Definition name_in (d path : string) : option string :=
  let prefix := d ++ "/" in
  if PyStr.startswith prefix path then
    let name := PyStr.drop (PyStr.len prefix) path in
    if PyStr.nonempty name && negb (PyStr.sany (fun c => PyStr.eqc c "/") name)
    then Some name else None
  else None.

(** [os.listdir(d)]. *)
Definition listdir (d : string) (files : FileSystem) : Result (list string) :=
  match files !! d with
  | Some Directory => Ok (omap (fun entry => name_in d (fst entry))
                               (map_to_list files))
  | _ => Raise OSError
  end.

(** [save_candidate(candidate_data)], where [candidate_data] refers to a
    dictionary of the heap, and [now1], [now2] are the two readings of the
    clock. *)
Definition save_candidate (now1 now2 : DateTime) (candidate_data : nat)
    (w : World) : Result string * World :=
  match heap w !! candidate_data with
  | None => (Raise TypeError, w)
  | Some d =>
      let d1 := <["submission_time" := VStr (isoformat now1)]> d in
      let w1 := mkWorld (<[candidate_data := d1]> (heap w)) (fs w) in
      let timestamp := strftime now2 in
      match default (VStr "unknown") (d1 !! "name") with
      | VList _ => (Raise AttributeError, w1)
      | VStr name =>
          let name_slug := PyStr.replace " " "_" (PyStr.lower name) in
          let filename := name_slug ++ "_" ++ timestamp ++ ".json" in
          let filepath := join CANDIDATES_DIR filename in
          match write_file filepath (Document (dict_to_json d1)) (fs w1) with
          | Ok files => (Ok filepath, mkWorld (heap w1) files)
          | Raise e => (Raise e, w1)
          end
      end
  end.

(** [load_candidate(filepath)]: [Ok None] is the [None] returned for a path
    that does not exist. *)
Definition load_candidate (filepath : string) (files : FileSystem)
  : Result (option Json) :=
  match files !! filepath with
  | None | Some Dangling => Ok None
  | Some _ =>
      match read_json filepath files with
      | Ok j => Ok (Some j)
      | Raise e => Raise e
      end
  end.

(** The loop of [get_all_candidates] over the names of the directory. *)
Fixpoint collect_candidates (names : list string) (files : FileSystem)
    (candidates : list Json) : Result (list Json) :=
  match names with
  | [] => Ok candidates
  | filename :: names' =>
      if PyStr.endswith ".json" filename then
        let filepath := join CANDIDATES_DIR filename in
        match load_candidate filepath files with
        | Raise e => Raise e
        | Ok (Some candidate) =>
            if truthy candidate
            then collect_candidates names' files (candidates ++ [candidate])%list
            else collect_candidates names' files candidates
        | Ok None => collect_candidates names' files candidates
        end
      else collect_candidates names' files candidates
  end.

Definition get_all_candidates (files : FileSystem) : Result (list Json) :=
  match listdir CANDIDATES_DIR files with
  | Raise e => Raise e
  | Ok names => collect_candidates names files []
  end.

(** [bool(v)] for a stored value. *)
Definition value_truthy (v : Value) : bool :=
  match v with
  | VStr s => PyStr.nonempty s
  | VList l => negb (Nat.eqb (length l) 0)
  end.

(** [create_candidate_record(...)]: the arguments are the values the caller
    read from the candidate data. *)
Definition create_candidate_record
    (name email phone experience position location tech_stack : Value)
    (technical_qa : option Value) : gmap string Value :=
  <["status" := VStr "screened"]>
  (<["technical_qa" :=
       match technical_qa with
       | Some v => if value_truthy v then v else VList []
       | None => VList []
       end]>
  (<["tech_stack" := tech_stack]>
  (<["location" := location]>
  (<["position" := position]>
  (<["experience" := experience]>
  (<["phone" := phone]>
  (<["email" := email]>
  (<["name" := name]> ∅)))))))).

End DataHandler.

(** ** app.py: the session of the page *)

Module App.

(** [st.session_state]: the chatbot, the transcript as pairs of role and
    content, and the two flags. *)
Record SessionState : Type := mkSession {
  chatbot : Chatbot.HiringAssistantChatbot;
  messages : list (string * string);
  conversation_started : bool;
  data_saved : bool
}.

Definition start_conversation `{Runtime} (st : SessionState)
  : Result unit * SessionState :=
  if negb (conversation_started st) then
    let '(r, bot, _) := Chatbot.get_greeting (chatbot st) in
    match r with
    | Ok greeting =>
        (Ok tt,
         mkSession bot (messages st ++ [("assistant", greeting)])%list
                   true (data_saved st))
    | Raise e =>
        (Raise e,
         mkSession bot (messages st) (conversation_started st) (data_saved st))
    end
  else (Ok tt, st).

(** [save_candidate_data()]: [Ok None] is the [None] returned when nothing
    is saved.  The record is a new dictionary, at a reference the heap does
    not use yet. *)
Definition save_candidate_data (now1 now2 : DataHandler.DateTime)
    (st : SessionState) (w : DataHandler.World)
  : Result (option string) * SessionState * DataHandler.World :=
  if negb (data_saved st) && Chatbot.is_conversation_complete (chatbot st) then
    let candidate_data := Chatbot.get_candidate_data (chatbot st) in
    if negb (Nat.eqb (size candidate_data) 0) &&
       match candidate_data !! "name" with Some _ => true | None => false end
    then
      let record :=
        DataHandler.create_candidate_record
          (default (VStr "") (candidate_data !! "name"))
          (default (VStr "") (candidate_data !! "email"))
          (default (VStr "") (candidate_data !! "phone"))
          (default (VStr "") (candidate_data !! "experience"))
          (default (VStr "") (candidate_data !! "position"))
          (default (VStr "") (candidate_data !! "location"))
          (default (VStr "") (candidate_data !! "tech_stack"))
          (Some (default (VList []) (candidate_data !! "technical_qa"))) in
      let ref := fresh (dom (DataHandler.heap w)) in
      let w1 :=
        DataHandler.mkWorld (<[ref := record]> (DataHandler.heap w))
                            (DataHandler.fs w) in
      match DataHandler.save_candidate now1 now2 ref w1 with
      | (Ok filepath, w2) =>
          (Ok (Some filepath),
           mkSession (chatbot st) (messages st) (conversation_started st) true,
           w2)
      | (Raise e, w2) => (Raise e, st, w2)
      end
    else (Ok None, st, w)
  else (Ok None, st, w).

Definition reset_conversation (st : SessionState) : SessionState :=
  let '(_, bot, _) := Chatbot.reset (chatbot st) in
  mkSession bot [] false false.

End App.

(** ** A scripted runtime

    The runtime of the examples: the numbers are the integers written in
    decimal, and the completion service answers its [n]-th call with the
    [n]-th entry of a script ([None], and every call past the end of the
    script, is a call that raises). *)

Module Scripted.

Fixpoint decimal_value (s : string) (acc : Z) : Z :=
  match s with
  | EmptyString => acc
  | String c s' => decimal_value s' (10 * acc + Z.of_nat (PyStr.code c - 48))%Z
  end.

Definition parse_int (s : string) : option Z :=
  let t := PyStr.strip s in
  if PyStr.isdigit t then Some (decimal_value t 0) else None.

Definition runtime (script : list (option string)) : Runtime := {|
  float := Z;
  float_of_str := parse_int;
  float_of_int := fun z => z;
  float_add := Z.add;
  float_div := Z.div;
  float_leb := Z.leb;
  float_ltb := Z.ltb;
  float_str := PyStr.of_Z;
  float_fmt1 := fun z => PyStr.of_Z z ++ ".0";
  list_str := fun _ => "[...]";
  MAX_TECHNICAL_QUESTIONS := 7;
  MIN_TECHNICAL_QUESTIONS := 5;
  send_message := fun log _ => default None (script !! length log)
|}.

End Scripted.

(** * The vocabulary of the properties *)

Import Chatbot.

(** [p] occurs in [s]: [s] is [pre ++ p ++ post]. *)
Definition occurs_in (p s : string) : Prop :=
  exists pre post : string, s = pre ++ p ++ post.

(** The object after [self.state = st]. *)
Definition with_state (st : ConversationState) (self : HiringAssistantChatbot)
  : HiringAssistantChatbot :=
  mkChatbot (chat self) st (candidate_data self)
            (technical_questions self) (current_question_index self).

(** The number as the claim reads it: the characters of [phone] that are
    neither whitespace nor one of [-], [(], [)], [+]. *)
Definition phone_without_separators (phone : string) : string :=
  PyStr.sfilter
    (fun c => negb (PyStr.is_space c ||
                    existsb (PyStr.eqc c) ["-"; "("; ")"; "+"]%char))
    phone.

(** What the claim asks of an accepted number. *)
Definition phone_acceptable (phone : string) : Prop :=
  let cleaned := phone_without_separators phone in
  (forall c, In c (list_ascii_of_string cleaned) -> PyStr.is_digit c = true) /\
  10 <= PyStr.len cleaned <= 15.


(** [c] is one of the characters of [s]. *)
Definition has_char (c : ascii) (s : string) : bool :=
  PyStr.sany (fun a => PyStr.eqc a c) s.

(** The line, trimmed, shows [label], whatever the case of its letters. *)
Definition mentions (label raw : string) : bool :=
  PyStr.contains label (PyStr.upper (PyStr.strip raw)).

(** No line shows [label]. *)
Definition unlabelled (label : string) (lines : list string) : Prop :=
  forallb (fun raw => negb (mentions label raw)) lines = true.

(** The strings of the candidate data are ASCII text. *)
Definition ascii_option (o : option string) : bool :=
  match o with
  | Some s => PyStr.isascii s
  | None => true
  end.

Definition ascii_qa (qa : QA) : bool :=
  PyStr.isascii (qa_technology qa) && PyStr.isascii (qa_question qa) &&
  PyStr.isascii (qa_answer qa) && ascii_option (qa_evaluation qa) &&
  ascii_option (qa_score qa).

Definition ascii_value (v : Value) : bool :=
  match v with
  | VStr s => PyStr.isascii s
  | VList l => forallb ascii_qa l
  end.

Definition ascii_data (d : gmap string Value) : bool :=
  forallb (fun entry => ascii_value (snd entry)) (map_to_list d).

(** The text of a score before its first slash (all of it when it has no
    slash). *)
Definition numerator_text (score : string) : string :=
  fst (PyStr.span (fun c => negb (PyStr.eqc c "/")) score).

(** The checks of [_collect_tech_stack] that come before the tech stack is
    accepted, taken together. *)
Definition tech_stack_accepted (tech_stack : string) : bool :=
  let tech_stack_clean := PyStr.strip tech_stack in
  fst (Validators.validate_non_empty tech_stack "Tech stack") &&
  negb (Nat.ltb (PyStr.len tech_stack_clean) 3) &&
  negb (PyStr.isdigit tech_stack_clean ||
        Nat.eqb (length (PyStr.words tech_stack_clean)) 0) &&
  negb (match PyStr.words (PyStr.replace "," " " tech_stack_clean) with
        | [w] => Nat.leb (PyStr.len w) 2
        | _ => false
        end) &&
  PyStr.sany PyStr.is_alpha tech_stack_clean.


(** The dictionary once [save_candidate] has marked it. *)
Definition stamped (now1 : DataHandler.DateTime) (d : gmap string Value)
  : gmap string Value :=
  <["submission_time" := VStr (DataHandler.isoformat now1)]> d.

(** The part of the file name that comes from the name of the candidate. *)
Definition name_slug (name : string) : string :=
  PyStr.replace " " "_" (PyStr.lower name).

(** The path of the file of a candidate called [name], saved at [now2]. *)
Definition record_path (name : string) (now2 : DataHandler.DateTime) : string :=
  DataHandler.join DataHandler.CANDIDATES_DIR
    (name_slug name ++ "_" ++ DataHandler.strftime now2 ++ ".json").

(** The keys of a persisted record. *)
Definition record_keys : gset string :=
  {["name"; "email"; "phone"; "experience"; "position"; "location";
    "tech_stack"; "technical_qa"; "status"; "submission_time"]}.

(** The entry [filename] can be loaded: nothing is there any more, or a file
    that holds a JSON document. *)
Definition loadable (files : gmap string DataHandler.Node) (filename : string)
  : bool :=
  match files !! DataHandler.join DataHandler.CANDIDATES_DIR filename with
  | None
  | Some DataHandler.Dangling
  | Some (DataHandler.Regular (DataHandler.Document _)) => true
  | _ => false
  end.

(** A name that does not end in [.json] is not looked at. *)
Definition entry_ok (files : gmap string DataHandler.Node) (filename : string)
  : bool :=
  negb (PyStr.endswith ".json" filename) || loadable files filename.

(** The record listed for [filename], if any: the document of a [.json]
    file, when it is not empty. *)
Definition record_of (files : gmap string DataHandler.Node) (filename : string)
  : option DataHandler.Json :=
  if PyStr.endswith ".json" filename then
    match files !! DataHandler.join DataHandler.CANDIDATES_DIR filename with
    | Some (DataHandler.Regular (DataHandler.Document j)) =>
        if DataHandler.truthy j then Some j else None
    | _ => None
    end
  else None.

Section Vocabulary.

Context `{Runtime}.

(** The scores that parse, in the order of the entries: for an entry with a
    [score], the number read before the first slash. *)
Definition parsed_scores (entries : list QA) : list float :=
  omap score_val entries.

(** The sum the loop computes: from [0], left to right. *)
Definition float_sum_from (start : float) (vs : list float) : float :=
  fold_left float_add vs start.

(** The sum of the numbers [vs]. *)
Definition float_sum (vs : list float) : float :=
  float_sum_from (float_of_int 0) vs.

(** The average as the claim reads it: the sum of the parsed numerators
    divided by their count; [None] when no score parses. *)
Definition average_of_parsed (entries : list QA) : option float :=
  match parsed_scores entries with
  | [] => None
  | vs => Some (float_div (float_sum vs) (float_of_int (Z.of_nat (length vs))))
  end.

(** The number an entry brings to the average, as the claim reads it: the
    entry has a score, and the text of the score before its first slash
    parses as a number. *)
Definition parsed_numerator (qa : QA) : option float :=
  match qa_score qa with
  | Some score => float_of_str (numerator_text score)
  | None => None
  end.

(** The numerators of the entries whose score parses, in order. *)
Definition parsed_numerators (entries : list QA) : list float :=
  omap parsed_numerator entries.

(** The sum of the parsed numerators divided by the count of the entries
    whose score parses; [None] when there is no such entry. *)
Definition average_of_numerators (entries : list QA) : option float :=
  match parsed_numerators entries with
  | [] => None
  | vs => Some (float_div (float_sum vs) (float_of_int (Z.of_nat (length vs))))
  end.

(** The name the closing messages address. *)
Definition candidate_name_of (self : HiringAssistantChatbot) : string :=
  Prompts.py_str (default (VStr "there") (candidate_data self !! "name")).

(** The instruction sent for the decision. *)
Definition decision_prompt_of (self : HiringAssistantChatbot) : Result string :=
  Prompts.get_screening_decision_prompt
    (candidate_data self)
    (default (VList []) (candidate_data self !! "technical_qa")).

(** The object after a conclusion that sent [prompt], got [reply] and left
    [data] as the candidate data. *)
Definition concluded (self : HiringAssistantChatbot) (prompt : string)
    (reply : option string) (data : gmap string Value)
  : HiringAssistantChatbot :=
  mkChatbot (chat self ++ [(prompt, reply)])%list ENDED data
            (technical_questions self) (current_question_index self).

(** The candidate data once the tech stack is accepted. *)
Definition with_tech_stack (self : HiringAssistantChatbot) (tech_stack : string)
  : gmap string Value :=
  <["tech_stack" := VStr (PyStr.strip tech_stack)]> (candidate_data self).

(** The instruction sent for the questions. *)
Definition question_prompt_of (self : HiringAssistantChatbot)
    (tech_stack : string) : string :=
  Prompts.get_ai_question_generation_prompt
    tech_stack (experience_years_of (with_tech_stack self tech_stack))
    MAX_TECHNICAL_QUESTIONS.

(** The instruction sent for the evaluation of [answer]. *)
Definition evaluation_prompt_of (current_q : Question) (answer : string)
    (tech_stack : Value) : string :=
  Prompts.get_answer_evaluation_prompt
    (question current_q) answer (Prompts.py_str tech_stack).

(** The object when the conclusion starts: the call for the evaluation is
    made, the entry is appended, the index is advanced, and the state is
    [CONCLUSION]. *)
Definition answered (self : HiringAssistantChatbot) (prompt : string)
    (reply : option string) (entries : list QA) : HiringAssistantChatbot :=
  mkChatbot (chat self ++ [(prompt, reply)])%list CONCLUSION
            (<["technical_qa" := VList entries]> (candidate_data self))
            (technical_questions self) (current_question_index self + 1).

(** The message is taken as an answer: the session is asking questions, the
    message shows no exit keyword and is not the signal that starts the
    first question. *)
Definition taken_as_answer (self : HiringAssistantChatbot)
    (user_message : string) : Prop :=
  state self = ASK_TECHNICAL_QUESTIONS /\
  check_exit_intent user_message = false /\
  Nat.eqb (current_question_index self) 0 &&
  existsb (String.eqb (PyStr.lower (PyStr.strip user_message))) ready_words
  = false.

(** The state that follows [st] in the order of the conversation. *)
Definition next_state (st : ConversationState) : ConversationState :=
  match st with
  | GREETING => COLLECT_NAME
  | COLLECT_NAME => COLLECT_EMAIL
  | COLLECT_EMAIL => COLLECT_PHONE
  | COLLECT_PHONE => COLLECT_EXPERIENCE
  | COLLECT_EXPERIENCE => COLLECT_POSITION
  | COLLECT_POSITION => COLLECT_LOCATION
  | COLLECT_LOCATION => COLLECT_TECH_STACK
  | COLLECT_TECH_STACK => ASK_TECHNICAL_QUESTIONS
  | ASK_TECHNICAL_QUESTIONS => CONCLUSION
  | CONCLUSION => ENDED
  | ENDED => ENDED
  end.

(** The key under which the six plain fields are stored, by the state that
    collects them. *)
Definition field_key (st : ConversationState) : option string :=
  match st with
  | COLLECT_NAME => Some "name"
  | COLLECT_EMAIL => Some "email"
  | COLLECT_PHONE => Some "phone"
  | COLLECT_EXPERIENCE => Some "experience"
  | COLLECT_POSITION => Some "position"
  | COLLECT_LOCATION => Some "location"
  | _ => None
  end.

(** What one call may have done to the object: the state is as before, the
    next one, or [ENDED], and is not [CONCLUSION] unless it was before; no key
    of the candidate data is lost; the question index stays within the list
    of questions; the chat session received at most [n] calls more. *)
Definition moved_on (n : nat) (self after : HiringAssistantChatbot) : Prop :=
  (state after = state self \/ state after = next_state (state self) \/
   state after = ENDED) /\
  (state self <> CONCLUSION -> state after <> CONCLUSION) /\
  dom (candidate_data self) ⊆ dom (candidate_data after) /\
  (current_question_index self <= length (technical_questions self) ->
   current_question_index after <= length (technical_questions after)) /\
  exists calls, chat after = (chat self ++ calls)%list /\ length calls <= n.

(** The object once the questions are set: the request for questions was
    sent and answered by [reply], the tech stack and the two empty lists are
    stored, and the first of [questions] is the current one. *)
Definition asking (self : HiringAssistantChatbot) (tech_stack : string)
    (reply : option string) (questions : list Question)
  : HiringAssistantChatbot :=
  mkChatbot (chat self ++ [(question_prompt_of self tech_stack, reply)])%list
            ASK_TECHNICAL_QUESTIONS
            (<["evaluation_scores" := VList []]>
               (<["technical_qa" := VList []]>
                  (with_tech_stack self tech_stack)))
            questions 0.

(** The reply that introduces the questions. *)
Definition questions_intro (tech_stack : string) : string :=
  Prompts.get_technical_question_intro tech_stack ++ PyStr.nl ++ PyStr.nl ++
  "**Type 'ready' when you're ready for the first question.**".

(** The object a new chatbot starts from. *)
Definition fresh_chatbot : HiringAssistantChatbot :=
  mkChatbot [] GREETING ∅ [] 0.

(** A conversation: the replies of [process_message] to the messages, one
    after the other, and the object at the end. *)
Fixpoint converse (messages : list string) (self : HiringAssistantChatbot)
  : list (Result string) * HiringAssistantChatbot :=
  match messages with
  | [] => ([], self)
  | user_message :: messages' =>
      let '(r, self1, _) := process_message user_message self in
      let '(rs, self2) := converse messages' self1 in
      (r :: rs, self2)
  end.

End Vocabulary.

(** * Properties *)

(** ** The model at work *)

Example strip_example : PyStr.strip "  Bye now " = "Bye now".
Proof. reflexivity. Qed.

Example split_example : PyStr.split ":" "a:b:c" = ["a"; "b"; "c"].
Proof. reflexivity. Qed.

Example split1_example :
  PyStr.split1 ":" "SCORE: 8:10" = ["SCORE"; " 8:10"].
Proof. reflexivity. Qed.

Example words_example : PyStr.words " Python  Django" = ["Python"; "Django"].
Proof. reflexivity. Qed.

Example of_nat_example : PyStr.of_nat 107 = "107".
Proof. reflexivity. Qed.

Example validate_email_examples :
  fst (Validators.validate_email "name@example.com") = true /\
  fst (Validators.validate_email "n.a+me@ex-ample.co.uk ") = true /\
  fst (Validators.validate_email "name.example.com") = false /\
  fst (Validators.validate_email "name@example") = false /\
  fst (Validators.validate_email "a@b.c") = false /\
  fst (Validators.validate_email "") = false.
Proof. repeat split; reflexivity. Qed.

Example validate_name_examples :
  fst (Validators.validate_name " a ") = false /\
  fst (Validators.validate_name "Al") = true.
Proof. split; reflexivity. Qed.

Example check_exit_intent_examples :
  check_exit_intent "Goodbye!" = true /\
  check_exit_intent "I build the frontend" = true /\
  check_exit_intent "Python" = false.
Proof. repeat split; reflexivity. Qed.

Example tech_stack_accepted_examples :
  tech_stack_accepted "Python, Django, PostgreSQL" = true /\
  tech_stack_accepted "12345" = false /\
  tech_stack_accepted "ok" = false.
Proof. repeat split; reflexivity. Qed.

Example parse_questions_example :
  parse_questions
    ("Here are your questions:" ++ PyStr.nl ++
     "1. What is a closure in JavaScript?" ++ PyStr.nl ++
     "2) Why?" ++ PyStr.nl ++
     "- Explain the GIL in Python.") =
  ["What is a closure in JavaScript?"; "Explain the GIL in Python."].
Proof. reflexivity. Qed.

Example isoformat_examples :
  DataHandler.isoformat (DataHandler.mkDateTime 2026 11 3 17 31 5 0)
  = "2026-11-03T17:31:05" /\
  DataHandler.isoformat (DataHandler.mkDateTime 2026 11 3 17 31 5 1234)
  = "2026-11-03T17:31:05.001234" /\
  DataHandler.strftime (DataHandler.mkDateTime 2026 11 3 17 31 5 1234)
  = "20261103_173105".
Proof. repeat split; reflexivity. Qed.

(** A whole screening.  The request for questions fails, so the five general
    questions are asked; every answer is evaluated, and the decision is to
    screen in.  What is observed of the outcome: the greeting, the number of
    replies, the final state and index, the decision and the reasoning
    stored, and the number of answers with the summary made of them. *)
Example conversation_example :
  let evaluation :=
    Some ("ACKNOWLEDGMENT: Clear answer." ++ PyStr.nl ++ "SCORE: 7/10") in
  let decision :=
    Some ("DECISION: SCREEN IN" ++ PyStr.nl ++ "REASONING: Solid basics." ++
          PyStr.nl ++ "MESSAGE: Well done.") in
  let script :=
    [Some "Welcome! What is your full name?"; None;
     evaluation; evaluation; evaluation; evaluation; evaluation; decision] in
  (let '(greeting, started, _) :=
     get_greeting (H := Scripted.runtime script) (mkChatbot [] GREETING ∅ [] 0) in
   let '(replies, after) :=
     converse (H := Scripted.runtime script)
       ["Ada Lovelace"; "ada@example.com"; "+1 (555) 123-4567"; "7";
        "Software Engineer"; "London"; "Python, Django"; "ready";
        "I write tests first."; "I read the manual."; "Mostly Django.";
        "With code reviews."; "I bisect the history."]
       started in
   (greeting, length replies, state after, current_question_index after,
    candidate_data after !! "screening_decision",
    candidate_data after !! "screening_reasoning",
    match candidate_data after !! "technical_qa" with
    | Some (VList entries) =>
        Some (length entries,
              interview_summary (H := Scripted.runtime script) entries)
    | _ => None
    end)) =
  (Ok "Welcome! What is your full name?", 13, ENDED, 5,
   Some (VStr "SCREEN IN"), Some (VStr "Solid basics."),
   Some (5,
         PyStr.concat
           [summary_header; "- Questions answered: 5"; PyStr.nl;
            "- Average score: 7.0/10"; PyStr.nl; PyStr.nl])).
Proof. vm_compute. reflexivity. Qed.

(** ** Strings *)

Lemma eqc_refl (a : ascii) : PyStr.eqc a a = true.
Proof. apply Ascii.eqb_refl. Qed.

Lemma eqc_true (a b : ascii) : PyStr.eqc a b = true -> a = b.
Proof. apply Ascii.eqb_eq. Qed.

Lemma startswith_append (p post : string) :
  PyStr.startswith p (p ++ post) = true.
Proof.
  induction p as [|a p IH]; simpl; [reflexivity|].
  now rewrite eqc_refl, IH.
Qed.

Lemma startswith_inv (p : string) :
  forall s, PyStr.startswith p s = true -> exists post, s = p ++ post.
Proof.
  induction p as [|a p IH]; intros s Hs; simpl in *.
  - now exists s.
  - destruct s as [|b s]; [discriminate|].
    apply andb_true_iff in Hs as [Hab Hs].
    apply eqc_true in Hab. subst b.
    destruct (IH s Hs) as [post ->]. now exists post.
Qed.

Lemma contains_unfold (p s : string) :
  PyStr.contains p s =
  PyStr.startswith p s ||
  match s with
  | EmptyString => false
  | String _ s' => PyStr.contains p s'
  end.
Proof. destruct s; reflexivity. Qed.

(** [contains] decides [occurs_in]. *)
Lemma contains_occurs (p s : string) :
  PyStr.contains p s = true <-> occurs_in p s.
Proof.
  split.
  - induction s as [|a s IH]; rewrite contains_unfold; intros Hc.
    + rewrite orb_false_r in Hc.
      destruct (startswith_inv _ _ Hc) as [post ->]. now exists "", post.
    + apply orb_true_iff in Hc as [Hc|Hc].
      * destruct (startswith_inv _ _ Hc) as [post ->]. now exists "", post.
      * destruct (IH Hc) as (pre & post & ->). now exists (String a pre), post.
  - intros (pre & post & ->).
    induction pre as [|a pre IH].
    + change ("" ++ p ++ post) with (p ++ post).
      rewrite contains_unfold. now rewrite startswith_append.
    + change (String a pre ++ p ++ post) with (String a (pre ++ p ++ post)).
      rewrite contains_unfold. cbv beta iota.
      rewrite IH. apply orb_true_r.
Qed.

(** ** The exit intent *)

Lemma with_state_same (self : HiringAssistantChatbot) :
  with_state (state self) self = self.
Proof. now destruct self. Qed.

Lemma check_exit_intent_spec (message : string) :
  check_exit_intent message = true <->
  exists keyword, In keyword Config.EXIT_KEYWORDS /\
                  occurs_in keyword (PyStr.strip (PyStr.lower message)).
Proof.
  unfold check_exit_intent. rewrite existsb_exists.
  split; intros (k & Hin & Hk); exists k; split; trivial;
    now apply contains_occurs.
Qed.

Lemma process_message_exit `{Runtime} (self : HiringAssistantChatbot)
    (user_message : string) :
  check_exit_intent user_message = true ->
  process_message user_message self =
  (Ok Prompts.get_exit_confirmation, with_state ENDED self, [ENDED]).
Proof.
  intros Hexit. unfold process_message. rewrite Hexit. reflexivity.
Qed.

(** C1.  Whatever the state of the session, [ENDED] included, a message
    whose lowercased and trimmed form contains an exit keyword makes
    [process_message] return the exit confirmation and assign [ENDED] to the
    state; nothing else is done: the chat session receives no call, the
    candidate data, the questions and the question index are as before, and
    [ENDED] is the only assignment to the state. *)
Theorem exit_keyword_ends_session `{Runtime} (self : HiringAssistantChatbot)
    (user_message keyword : string) :
  In keyword Config.EXIT_KEYWORDS ->
  occurs_in keyword (PyStr.strip (PyStr.lower user_message)) ->
  process_message user_message self =
  (Ok Prompts.get_exit_confirmation,
   mkChatbot (chat self) ENDED (candidate_data self)
             (technical_questions self) (current_question_index self),
   [ENDED]).
Proof.
  intros Hin Hocc. apply process_message_exit.
  apply check_exit_intent_spec. now exists keyword.
Qed.

Lemma exit_keyword_ends_session_witness :
  process_message (H := Scripted.runtime []) "  Goodbye, and thanks! "
    (mkChatbot [] COLLECT_EMAIL (<["name" := VStr "Ada"]> ∅) [] 0) =
  (Ok Prompts.get_exit_confirmation,
   mkChatbot [] ENDED (<["name" := VStr "Ada"]> ∅) [] 0,
   [ENDED]).
Proof.
  refine (exit_keyword_ends_session (H := Scripted.runtime [])
            (mkChatbot [] COLLECT_EMAIL (<["name" := VStr "Ada"]> ∅) [] 0)
            "  Goodbye, and thanks! " "bye" _ _).
  - simpl. tauto.
  - exists "good", ", and thanks!". reflexivity.
Defined.

(** ** The ended session *)

(** C2, as stated, fails: in an ended session a message that contains an
    exit keyword is answered with the exit confirmation, not with the
    session-closed text. *)
Lemma ended_session_reply_counterexample :
  ~ (forall (R : Runtime) (self : HiringAssistantChatbot) (user_message : string),
       state self = ENDED ->
       fst (fst (process_message user_message self)) = Ok session_closed).
Proof.
  intros Hclaim.
  specialize (Hclaim (Scripted.runtime []) (mkChatbot [] ENDED ∅ [] 0) "bye"
                     eq_refl).
  vm_compute in Hclaim. discriminate Hclaim.
Qed.

(** C2, amended.  Once the state is [ENDED], [is_conversation_complete] is
    true, and [process_message] leaves the whole object, state and candidate
    data included, as it is, for every message; it returns the session-closed
    text for a message without exit keyword, and the exit confirmation for a
    message with one. *)
Theorem ended_session_is_closed `{Runtime} (self : HiringAssistantChatbot)
    (user_message : string) :
  state self = ENDED ->
  is_conversation_complete self = true /\
  snd (fst (process_message user_message self)) = self /\
  fst (fst (process_message user_message self)) =
    Ok (if check_exit_intent user_message
        then Prompts.get_exit_confirmation else session_closed).
Proof.
  intros Hst. split; [unfold is_conversation_complete; now rewrite Hst|].
  destruct (check_exit_intent user_message) eqn:Hexit.
  - rewrite process_message_exit by assumption. simpl.
    rewrite <- Hst. now rewrite with_state_same.
  - unfold process_message. rewrite Hexit.
    unfold bind, get_self. rewrite Hst. simpl. now split.
Qed.

Lemma ended_session_is_closed_witness :
  let self := mkChatbot [] ENDED (<["name" := VStr "Ada"]> ∅) [] 0 in
  is_conversation_complete self = true /\
  snd (fst (process_message (H := Scripted.runtime []) "hello again" self)) = self /\
  fst (fst (process_message (H := Scripted.runtime []) "hello again" self)) =
    Ok session_closed.
Proof.
  exact (ended_session_is_closed (H := Scripted.runtime [])
           (mkChatbot [] ENDED (<["name" := VStr "Ada"]> ∅) [] 0)
           "hello again" eq_refl).
Defined.

(** ** The phone number *)

Lemma sall_forall (p : ascii -> bool) (s : string) :
  PyStr.sall p s = true <->
  forall c, In c (list_ascii_of_string s) -> p c = true.
Proof.
  induction s as [|a s IH]; simpl.
  - split; [intros _ c []|reflexivity].
  - rewrite andb_true_iff, IH. split.
    + intros [Ha Hs] c [<-|Hc]; auto.
    + intros Hall. split; [apply Hall; now left|].
      intros c Hc. apply Hall. now right.
Qed.

Lemma sfilter_ext (p q : ascii -> bool) (s : string) :
  (forall c, p c = q c) -> PyStr.sfilter p s = PyStr.sfilter q s.
Proof.
  intros Hpq. induction s as [|a s IH]; simpl; [reflexivity|].
  now rewrite Hpq, IH.
Qed.

Lemma phone_cleaned_eq (phone : string) :
  PyStr.sfilter (fun c => negb (Validators.phone_separator c)) phone =
  phone_without_separators phone.
Proof.
  apply sfilter_ext. intros c. unfold Validators.phone_separator. simpl.
  now rewrite orb_false_r, !orb_assoc.
Qed.

Lemma sfilter_empty (p : ascii -> bool) : PyStr.sfilter p "" = "".
Proof. reflexivity. Qed.

(** C8.  [validate_phone] accepts an ASCII string exactly when, without its
    whitespace and its [-], [(], [)], [+], it is made of digits only and has
    between 10 and 15 characters; every rejection comes with a non-empty
    message; ["+1 (555) 123-4567"] is accepted and ["12345"] is rejected. *)
Theorem validate_phone_accepts_digits_10_to_15 (phone : string) :
  PyStr.isascii phone = true ->
  (fst (Validators.validate_phone phone) = true <-> phone_acceptable phone) /\
  (fst (Validators.validate_phone phone) = false ->
   snd (Validators.validate_phone phone) <> "") /\
  Validators.validate_phone "+1 (555) 123-4567" = (true, "") /\
  PyStr.len (phone_without_separators "+1 (555) 123-4567") = 11 /\
  fst (Validators.validate_phone "12345") = false.
Proof.
  intros _. split; [|split; [|repeat split]].
  - unfold Validators.validate_phone, phone_acceptable.
    rewrite phone_cleaned_eq.
    destruct phone as [|a phone].
    + cbn [PyStr.nonempty negb fst]. rewrite <- phone_cleaned_eq.
      rewrite sfilter_empty. simpl. split; [discriminate|lia].
    + cbn [PyStr.nonempty negb].
      set (cleaned := phone_without_separators (String a phone)).
      rewrite <- sall_forall. unfold PyStr.isdigit.
      destruct (PyStr.sall PyStr.is_digit cleaned) eqn:Hd;
        destruct (Nat.leb 10 (PyStr.len cleaned)) eqn:Hlo;
        [apply Nat.leb_le in Hlo|apply Nat.leb_gt in Hlo
        |apply Nat.leb_le in Hlo|apply Nat.leb_gt in Hlo];
        destruct (Nat.leb (PyStr.len cleaned) 15) eqn:Hhi;
        [apply Nat.leb_le in Hhi|apply Nat.leb_gt in Hhi
        |apply Nat.leb_le in Hhi|apply Nat.leb_gt in Hhi
        |apply Nat.leb_le in Hhi|apply Nat.leb_gt in Hhi
        |apply Nat.leb_le in Hhi|apply Nat.leb_gt in Hhi];
        rewrite ?andb_true_r, ?andb_false_r; cbn [fst andb];
        try (split; [discriminate|intros [? [? ?]]; first [discriminate|lia]]).
      destruct cleaned as [|c cleaned']; [simpl in Hlo; lia|].
      cbn [PyStr.nonempty fst]. split; [intros _|reflexivity].
      repeat split; assumption.
  - unfold Validators.validate_phone.
    destruct (negb (PyStr.nonempty phone)); [intros _; discriminate|].
    match goal with |- context [if ?b then _ else _] => destruct b end;
      cbn [fst snd]; [discriminate|intros _; discriminate].
Qed.

Lemma validate_phone_accepts_digits_10_to_15_witness :
  let phone := "(020) 7946-0958 ext" in
  (fst (Validators.validate_phone phone) = true <-> phone_acceptable phone) /\
  (fst (Validators.validate_phone phone) = false ->
   snd (Validators.validate_phone phone) <> "") /\
  Validators.validate_phone "+1 (555) 123-4567" = (true, "") /\
  PyStr.len (phone_without_separators "+1 (555) 123-4567") = 11 /\
  fst (Validators.validate_phone "12345") = false.
Proof.
  exact (validate_phone_accepts_digits_10_to_15 "(020) 7946-0958 ext" eq_refl).
Defined.

(** ** The lines of a generated list of questions *)


Lemma parse_questions_from (lines acc : list string) :
  fold_left
    (fun questions_list line =>
       match parse_question_line line with
       | Some question_text => (questions_list ++ [question_text])%list
       | None => questions_list
       end)
    lines acc = (acc ++ omap parse_question_line lines)%list.
Proof.
  revert acc. induction lines as [|line lines IH]; intros acc; simpl.
  - now rewrite app_nil_r.
  - rewrite IH. destruct (parse_question_line line); [|reflexivity].
    now rewrite <- app_assoc.
Qed.



(** ** The average score of the summary *)

Section Average.

Context `{Runtime}.

Lemma score_totals_from (entries : list QA) :
  forall (total : Num) (count : nat),
    fold_left
      (fun '(total_score, scored_count) qa =>
         match score_val qa with
         | Some v => (NFloat (float_add (to_float total_score) v), S scored_count)
         | None => (total_score, scored_count)
         end)
      entries (total, count) =
    (match parsed_scores entries with
     | [] => total
     | vs => NFloat (float_sum_from (to_float total) vs)
     end,
     count + length (parsed_scores entries)).
Proof.
  induction entries as [|qa entries IH]; intros total count.
  - simpl. now rewrite Nat.add_0_r.
  - unfold parsed_scores in *. simpl.
    destruct (score_val qa) as [v|].
    + rewrite IH. simpl. rewrite Nat.add_succ_r. f_equal.
      change (list_omap QA float score_val entries)
        with (omap score_val entries).
      now destruct (omap score_val entries).
    + apply IH.
Qed.

Lemma score_totals_parsed (entries : list QA) :
  score_totals entries =
  (match parsed_scores entries with
   | [] => NInt 0
   | vs => NFloat (float_sum vs)
   end,
   length (parsed_scores entries)).
Proof. unfold score_totals. now rewrite score_totals_from. Qed.

Lemma avg_score_parsed (entries : list QA) :
  avg_score entries =
  match average_of_parsed entries with
  | Some avg => NFloat avg
  | None => NInt 0
  end.
Proof.
  unfold avg_score, average_of_parsed. rewrite score_totals_parsed.
  now destruct (parsed_scores entries).
Qed.

Lemma parsed_scores_skip (before after : list QA) (qa : QA) :
  score_val qa = None ->
  parsed_scores (before ++ qa :: after) = parsed_scores (before ++ after).
Proof.
  intros Hqa. unfold parsed_scores. rewrite !omap_app. simpl.
  now rewrite Hqa.
Qed.

Lemma split_head (c : ascii) (s : string) :
  hd "" (PyStr.split c s) =
  fst (PyStr.span (fun a => negb (PyStr.eqc a c)) s).
Proof.
  induction s as [|a s IH]; [reflexivity|].
  cbn [PyStr.split PyStr.span].
  destruct (PyStr.eqc a c); cbn [negb]; [reflexivity|].
  destruct (PyStr.span _ s) as [h t]. cbn [fst] in *.
  destruct (PyStr.split c s) as [|first rest]; cbn [hd] in *; now subst h.
Qed.

Lemma score_val_numerator (qa : QA) : score_val qa = parsed_numerator qa.
Proof.
  unfold score_val, parsed_numerator, numerator_text.
  destruct (qa_score qa) as [score|]; [|reflexivity].
  now rewrite split_head.
Qed.

Lemma parsed_scores_numerators (entries : list QA) :
  parsed_scores entries = parsed_numerators entries.
Proof.
  unfold parsed_scores, parsed_numerators.
  induction entries as [|qa entries IH]; [reflexivity|].
  cbn [omap list_omap].
  change (list_omap QA float score_val entries)
    with (omap score_val entries).
  change (list_omap QA float parsed_numerator entries)
    with (omap parsed_numerator entries).
  now rewrite score_val_numerator, IH.
Qed.

(** C7.  The average of the summary is taken over exactly the entries whose
    score parses (the text before the first slash reads as a number): it is
    the sum of these numbers, from the first entry to the last, divided by
    their count.  An entry whose score does not parse, or that has no score,
    counts neither in the sum nor in the count; an entry whose score parses
    counts once, with its number; and the summary has no average line when
    no score parses. *)
Theorem average_score_over_parsed_entries (entries : list QA) :
  score_totals entries =
    (match parsed_numerators entries with
     | [] => NInt 0
     | vs => NFloat (float_sum vs)
     end,
     length (parsed_numerators entries)) /\
  avg_score entries =
    match average_of_numerators entries with
    | Some avg => NFloat avg
    | None => NInt 0
    end /\
  interview_summary entries =
    (let summary := summary_header in
     let summary :=
       summary ++ "- Questions answered: " ++
       PyStr.of_nat (length entries) ++ PyStr.nl in
     let summary :=
       match average_of_numerators entries with
       | Some avg =>
           summary ++ "- Average score: " ++ float_fmt1 avg ++ "/10" ++ PyStr.nl
       | None => summary
       end in
     summary ++ PyStr.nl) /\
  (forall (before after : list QA) (qa : QA),
     entries = (before ++ qa :: after)%list ->
     match qa_score qa with
     | Some score => float_of_str (numerator_text score) = None
     | None => True
     end ->
     score_totals entries = score_totals (before ++ after) /\
     avg_score entries = avg_score (before ++ after)) /\
  (forall (before after : list QA) (qa : QA) (score : string) (v : float),
     entries = (before ++ qa :: after)%list ->
     qa_score qa = Some score ->
     float_of_str (numerator_text score) = Some v ->
     parsed_numerators entries =
     (parsed_numerators before ++ v :: parsed_numerators after)%list).
Proof.
  split; [|split; [|split; [|split]]].
  - rewrite score_totals_parsed. now rewrite parsed_scores_numerators.
  - rewrite avg_score_parsed. unfold average_of_parsed, average_of_numerators.
    now rewrite parsed_scores_numerators.
  - unfold interview_summary. rewrite avg_score_parsed.
    rewrite score_totals_parsed.
    unfold average_of_parsed, average_of_numerators.
    rewrite parsed_scores_numerators.
    now destruct (parsed_numerators entries).
  - intros before after qa -> Hqa.
    assert (Hnone : score_val qa = None).
    { rewrite score_val_numerator. unfold parsed_numerator.
      now destruct (qa_score qa). }
    rewrite !avg_score_parsed, !score_totals_parsed.
    unfold average_of_parsed.
    now rewrite (parsed_scores_skip _ _ _ Hnone).
  - intros before after qa score v -> Hscore Hv.
    unfold parsed_numerators. rewrite omap_app. cbn [omap list_omap].
    unfold parsed_numerator at 2. now rewrite Hscore, Hv.
Qed.

End Average.

Lemma average_score_over_parsed_entries_witness :
  let scored := fun score => mkQA "General" "Why?" "Because." None score in
  let entries :=
    [scored (Some "8/10"); scored (Some "N/A"); scored None;
     scored (Some " 6 /10"); scored (Some "seven/10")] in
  interview_summary (H := Scripted.runtime []) entries =
  PyStr.concat
    [summary_header; "- Questions answered: 5"; PyStr.nl;
     "- Average score: 7.0/10"; PyStr.nl; PyStr.nl].
Proof.
  intros scored entries.
  rewrite (proj1 (proj2 (proj2 (average_score_over_parsed_entries
                                  (H := Scripted.runtime []) entries)))).
  vm_compute. reflexivity.
Defined.

(** ** The labelled lines of a reply *)

Lemma sany_append (p : ascii -> bool) (s t : string) :
  PyStr.sany p (s ++ t) = PyStr.sany p s || PyStr.sany p t.
Proof.
  induction s as [|a s IH]; simpl; [reflexivity|].
  now rewrite IH, orb_assoc.
Qed.

Lemma occurs_has_char (c : ascii) (p s : string) :
  occurs_in p s -> has_char c p = true -> has_char c s = true.
Proof.
  intros (pre & post & ->) Hp. unfold has_char in *.
  rewrite !sany_append, Hp. now rewrite orb_true_r.
Qed.

Lemma upper_char_colon (a : ascii) :
  PyStr.eqc (PyStr.upper_char a) ":" = PyStr.eqc a ":".
Proof.
  destruct a as [[] [] [] [] [] [] [] []]; reflexivity.
Qed.

Lemma has_colon_upper (s : string) :
  has_char ":" (PyStr.upper s) = has_char ":" s.
Proof.
  unfold has_char, PyStr.upper.
  induction s as [|a s IH]; cbn [PyStr.smap PyStr.sany]; [reflexivity|].
  now rewrite upper_char_colon, IH.
Qed.

Lemma split1_at (c : ascii) (s : string) :
  has_char c s = true -> exists h r, PyStr.split1 c s = [h; r].
Proof.
  unfold has_char. induction s as [|a s IH]; simpl; [discriminate|].
  destruct (PyStr.eqc a c); simpl.
  - intros _. now exists "", s.
  - intros Hs. destruct (IH Hs) as (h & r & ->). now exists (String a h), r.
Qed.

(** A line that shows a label has a colon, so [split(':', 1)[1]] exists. *)
Lemma after_colon_ok (label line : string) :
  has_char ":" label = true ->
  PyStr.contains label (PyStr.upper line) = true ->
  exists v, after_colon line = Ok v.
Proof.
  intros Hlabel Hc. apply contains_occurs in Hc.
  pose proof (occurs_has_char _ _ _ Hc Hlabel) as Hline.
  rewrite has_colon_upper in Hline.
  destruct (split1_at _ _ Hline) as (h & r & Hsplit).
  unfold after_colon. rewrite Hsplit. now eexists.
Qed.

(** The loop over a decision never raises, and a value whose label no line
    shows is the one the loop started from. *)
Lemma parse_decision_ok (lines : list string) :
  forall decision reasoning message : string,
  exists d r m,
    parse_decision lines decision reasoning message = Ok (d, r, m) /\
    (unlabelled "DECISION:" lines -> d = decision) /\
    (unlabelled "REASONING:" lines -> r = reasoning) /\
    (unlabelled "MESSAGE:" lines -> m = message).
Proof.
  unfold unlabelled.
  induction lines as [|raw lines IH]; intros decision reasoning message.
  - exists decision, reasoning, message. simpl. auto.
  - cbn [parse_decision forallb].
    change (PyStr.contains "DECISION:" (PyStr.upper (PyStr.strip raw)))
      with (mentions "DECISION:" raw).
    change (PyStr.contains "REASONING:" (PyStr.upper (PyStr.strip raw)))
      with (mentions "REASONING:" raw).
    change (PyStr.contains "MESSAGE:" (PyStr.upper (PyStr.strip raw)))
      with (mentions "MESSAGE:" raw).
    destruct (mentions "DECISION:" raw) eqn:Hd.
    { destruct (after_colon_ok "DECISION:" _ eq_refl Hd) as [v ->].
      destruct (IH v reasoning message) as (d & r & m & -> & _ & Hr & Hm).
      exists d, r, m. cbn [negb andb].
      split; [reflexivity|]. split; [discriminate|].
      split; intros Hl; apply andb_true_iff in Hl as [_ Hl]; auto. }
    destruct (mentions "REASONING:" raw) eqn:Hr.
    { destruct (after_colon_ok "REASONING:" _ eq_refl Hr) as [v ->].
      destruct (IH decision v message) as (d & r & m & -> & Hd' & _ & Hm).
      exists d, r, m. cbn [negb andb].
      split; [reflexivity|]. split; [assumption|]. split; [discriminate|].
      intros Hl; apply andb_true_iff in Hl as [_ Hl]; auto. }
    destruct (mentions "MESSAGE:" raw) eqn:Hm.
    { destruct (after_colon_ok "MESSAGE:" _ eq_refl Hm) as [v ->].
      destruct (IH decision reasoning v) as (d & r & m & -> & Hd' & Hr' & _).
      exists d, r, m. cbn [negb andb].
      split; [reflexivity|]. split; [assumption|]. split; [assumption|].
      discriminate. }
    destruct (IH decision reasoning message)
      as (d & r & m & -> & Hd' & Hr' & Hm').
    exists d, r, m. cbn [negb andb]. auto.
Qed.

Lemma parse_evaluation_ok (lines : list string) :
  forall score acknowledgment : string,
  exists s a, parse_evaluation lines score acknowledgment = Ok (s, a).
Proof.
  induction lines as [|line lines IH]; intros score acknowledgment.
  - now exists score, acknowledgment.
  - cbn [parse_evaluation].
    destruct (PyStr.contains "SCORE:" _) eqn:Hs.
    { destruct (after_colon_ok "SCORE:" _ eq_refl Hs) as [v ->]. apply IH. }
    destruct (PyStr.contains "ACKNOWLEDGMENT:" _) eqn:Ha.
    { destruct (after_colon_ok "ACKNOWLEDGMENT:" _ eq_refl Ha) as [v ->].
      apply IH. }
    apply IH.
Qed.

(** ** The conclusion *)

Section Conclusion.

Context `{Runtime}.

Lemma conclude_unfold (self : HiringAssistantChatbot) :
  _conclude_conversation self =
  match decision_prompt_of self with
  | Raise _ =>
      (Ok (conclusion_fallback (candidate_name_of self)),
       with_state ENDED self, [ENDED])
  | Ok prompt =>
      match send_message (chat self) prompt with
      | None =>
          (Ok (conclusion_fallback (candidate_name_of self)),
           concluded self prompt None (candidate_data self), [ENDED])
      | Some text =>
          match parse_decision (PyStr.split "010" text)
                  "SCREEN OUT" "" "Thank you for your time." with
          | Ok (decision, reasoning, message) =>
              (Ok (Prompts.get_conclusion_prompt
                     (candidate_name_of self) decision message),
               concluded self prompt (Some text)
                 (<["screening_reasoning" := VStr reasoning]>
                    (<["screening_decision" := VStr decision]>
                       (candidate_data self))),
               [ENDED])
          | Raise _ =>
              (Ok (conclusion_fallback (candidate_name_of self)),
               concluded self prompt (Some text) (candidate_data self), [ENDED])
          end
      end
  end.
Proof.
  unfold _conclude_conversation, decision_prompt_of, candidate_name_of.
  cbv [bind get_self try_except lift].
  destruct (Prompts.get_screening_decision_prompt _ _) as [prompt|e];
    [|reflexivity].
  cbv [chat_send]. cbn [chat state candidate_data technical_questions
                        current_question_index].
  destruct (send_message (chat self) prompt) as [text|]; [|reflexivity].
  destruct (parse_decision _ _ _ _) as [[[decision reasoning] message]|e];
    reflexivity.
Qed.

(** C5, amended.  For candidate data and replies in ASCII: when the decision
    call returns a reply, the decision is ["SCREEN OUT"], the reasoning is
    empty and the message is the generic one whenever no line of the reply
    shows the matching label, and the decision and the reasoning are stored
    under [screening_decision] and [screening_reasoning] before the state
    becomes [ENDED].  When the call fails (or the instruction cannot be
    built), the state becomes [ENDED], the candidate data is left as it is
    -- no decision and no reasoning is stored -- and a fixed closing text is
    returned. *)
Theorem conclusion_stores_decision_when_call_succeeds
    (self : HiringAssistantChatbot) :
  ascii_data (candidate_data self) = true ->
  match decision_prompt_of self with
  | Raise _ =>
      _conclude_conversation self =
      (Ok (conclusion_fallback (candidate_name_of self)),
       with_state ENDED self, [ENDED])
  | Ok prompt =>
      match send_message (chat self) prompt with
      | None =>
          _conclude_conversation self =
          (Ok (conclusion_fallback (candidate_name_of self)),
           concluded self prompt None (candidate_data self), [ENDED])
      | Some text =>
          PyStr.isascii text = true ->
          let lines := PyStr.split "010" text in
          exists decision reasoning message : string,
            (unlabelled "DECISION:" lines -> decision = "SCREEN OUT") /\
            (unlabelled "REASONING:" lines -> reasoning = "") /\
            (unlabelled "MESSAGE:" lines ->
             message = "Thank you for your time.") /\
            _conclude_conversation self =
            (Ok (Prompts.get_conclusion_prompt
                   (candidate_name_of self) decision message),
             concluded self prompt (Some text)
               (<["screening_reasoning" := VStr reasoning]>
                  (<["screening_decision" := VStr decision]>
                     (candidate_data self))),
             [ENDED])
      end
  end.
Proof.
  intros _. rewrite conclude_unfold.
  destruct (decision_prompt_of self) as [prompt|e]; [|reflexivity].
  destruct (send_message (chat self) prompt) as [text|]; [|reflexivity].
  intros _. cbv zeta.
  destruct (parse_decision_ok (PyStr.split "010" text)
              "SCREEN OUT" "" "Thank you for your time.")
    as (d & r & m & -> & Hd & Hr & Hm).
  exists d, r, m. auto.
Qed.

(** Whatever happens, the conclusion returns a text and ends the session,
    with [ENDED] as its only assignment to the state. *)
Lemma conclude_ends (self : HiringAssistantChatbot) :
  exists (text : string) (after : HiringAssistantChatbot),
    _conclude_conversation self = (Ok text, after, [ENDED]) /\
    state after = ENDED /\
    technical_questions after = technical_questions self /\
    current_question_index after = current_question_index self.
Proof.
  rewrite conclude_unfold.
  destruct (decision_prompt_of self) as [prompt|e]; [|now eexists _, _].
  destruct (send_message (chat self) prompt) as [text|]; [|now eexists _, _].
  destruct (parse_decision _ _ _ _) as [[[d r] m]|e]; now eexists _, _.
Qed.

End Conclusion.

(** C5, as stated, fails: when the decision call fails, neither a decision
    nor a reasoning is stored. *)
Lemma failed_decision_call_counterexample :
  ~ (forall (R : Runtime) (self : HiringAssistantChatbot),
       let after := snd (fst (_conclude_conversation self)) in
       exists decision reasoning : string,
         candidate_data after !! "screening_decision" = Some (VStr decision) /\
         candidate_data after !! "screening_reasoning" = Some (VStr reasoning)).
Proof.
  intros Hclaim.
  destruct (Hclaim (Scripted.runtime [None])
              (mkChatbot [] CONCLUSION
                 (<["technical_qa" := VList []]> (<["name" := VStr "Ada"]> ∅))
                 [] 0)) as (decision & reasoning & Hdecision & _).
  vm_compute in Hdecision. discriminate Hdecision.
Qed.

Lemma conclusion_stores_decision_when_call_succeeds_witness :
  let text := "Decision: SCREEN IN" ++ PyStr.nl ++ "MESSAGE: Well done." in
  let self :=
    mkChatbot [] CONCLUSION
      (<["technical_qa" :=
           VList [mkQA "General" "Why?" "Because." None (Some "7/10")]]>
         (<["name" := VStr "Ada"]> ∅))
      [] 0 in
  exists prompt decision reasoning message : string,
    decision_prompt_of (H := Scripted.runtime [Some text]) self = Ok prompt /\
    (unlabelled "REASONING:" (PyStr.split "010" text) -> reasoning = "") /\
    _conclude_conversation (H := Scripted.runtime [Some text]) self =
    (Ok (Prompts.get_conclusion_prompt
           (candidate_name_of (H := Scripted.runtime [Some text]) self)
           decision message),
     concluded self prompt (Some text)
       (<["screening_reasoning" := VStr reasoning]>
          (<["screening_decision" := VStr decision]> (candidate_data self))),
     [ENDED]).
Proof.
  intros text self.
  assert (Hdata : ascii_data (candidate_data self) = true)
    by (vm_compute; reflexivity).
  pose proof (conclusion_stores_decision_when_call_succeeds
                (H := Scripted.runtime [Some text]) self Hdata) as Hrun.
  destruct (decision_prompt_of (H := Scripted.runtime [Some text]) self)
    as [prompt|e] eqn:Hprompt; [|discriminate Hprompt].
  change (send_message (chat self) prompt) with (Some text) in Hrun.
  destruct (Hrun eq_refl) as (decision & reasoning & message & _ & Hr & _ & Hc).
  exists prompt, decision, reasoning, message. auto.
Defined.

(** ** The tech stack *)

Section TechStack.

Context `{Runtime}.

Lemma collect_tech_stack_accepted (self : HiringAssistantChatbot)
    (tech_stack : string) :
  tech_stack_accepted tech_stack = true ->
  _collect_tech_stack tech_stack self =
  (set_candidate_data "tech_stack" (VStr (PyStr.strip tech_stack)) ;;;
   self <-- get_self ;;
   returned <--
     try_except
       (generate_questions
          (Prompts.get_ai_question_generation_prompt
             tech_stack (experience_years_of (candidate_data self))
             MAX_TECHNICAL_QUESTIONS)
          MAX_TECHNICAL_QUESTIONS)
       (set_technical_questions fallback_questions ;;; ret None) ;;
   match returned with
   | Some text => ret text
   | None =>
       set_candidate_data "technical_qa" (VList []) ;;;
       set_candidate_data "evaluation_scores" (VList []) ;;;
       set_state ASK_TECHNICAL_QUESTIONS ;;;
       set_current_question_index 0 ;;;
       ret (Prompts.get_technical_question_intro tech_stack ++
            PyStr.nl ++ PyStr.nl ++
            "**Type 'ready' when you're ready for the first question.**")
   end) self.
Proof.
  unfold tech_stack_accepted, _collect_tech_stack. cbv zeta.
  destruct (Validators.validate_non_empty tech_stack "Tech stack")
    as [is_valid error_msg].
  cbn [fst]. intros Hacc.
  apply andb_true_iff in Hacc as [Hacc Halpha].
  apply andb_true_iff in Hacc as [Hacc Hshort].
  apply andb_true_iff in Hacc as [Hacc Hdigit].
  apply andb_true_iff in Hacc as [Hvalid Hlen].
  apply negb_true_iff in Hlen, Hdigit, Hshort.
  rewrite Hvalid, Hlen, Hdigit, Hshort, Halpha. reflexivity.
Qed.

(** C3, amended.  For an input and a reply in ASCII: in
    [COLLECT_TECH_STACK], when the input passes the checks on the tech
    stack and the reply to the request for questions has fewer accepted
    lines than the required minimum, [process_message] returns the
    message that asks for a more detailed tech stack and does not advance:
    the state stays [COLLECT_TECH_STACK], the questions and the question
    index are as before, and no question-and-answer list is started.  The
    trimmed tech stack has been stored under [tech_stack] by then, and the
    chat session has received the one request. *)
Theorem too_few_questions_does_not_advance (self : HiringAssistantChatbot)
    (tech_stack reply : string) :
  PyStr.isascii tech_stack = true ->
  PyStr.isascii reply = true ->
  state self = COLLECT_TECH_STACK ->
  check_exit_intent tech_stack = false ->
  tech_stack_accepted tech_stack = true ->
  send_message (chat self) (question_prompt_of self tech_stack) = Some reply ->
  (Z.of_nat (length (parse_questions reply)) < MIN_TECHNICAL_QUESTIONS)%Z ->
  process_message tech_stack self =
  (Ok not_enough_questions,
   mkChatbot (chat self ++ [(question_prompt_of self tech_stack, Some reply)])%list
             COLLECT_TECH_STACK
             (with_tech_stack self tech_stack)
             (technical_questions self) (current_question_index self),
   []).
Proof.
  intros _ _ Hstate Hexit Hacc Hreply Hfew.
  unfold process_message. rewrite Hexit.
  unfold bind at 1. unfold get_self at 1. rewrite Hstate.
  rewrite (collect_tech_stack_accepted _ _ Hacc).
  unfold question_prompt_of, with_tech_stack in *.
  cbv [bind get_self set_candidate_data try_except generate_questions chat_send].
  cbn [chat state candidate_data technical_questions current_question_index].
  rewrite Hreply.
  apply Z.ltb_lt in Hfew. rewrite Hfew.
  cbv [ret]. rewrite Hstate. reflexivity.
Qed.

End TechStack.

(** C3, as stated, fails: the trimmed tech stack is stored in the candidate
    data before the questions are asked for, and stays there when too few
    questions come back. *)
Lemma tech_stack_stored_counterexample :
  ~ (forall (R : Runtime) (self : HiringAssistantChatbot)
            (tech_stack reply : string),
       state self = COLLECT_TECH_STACK ->
       check_exit_intent tech_stack = false ->
       tech_stack_accepted tech_stack = true ->
       send_message (chat self) (question_prompt_of self tech_stack) = Some reply ->
       (Z.of_nat (length (parse_questions reply)) < MIN_TECHNICAL_QUESTIONS)%Z ->
       let after := snd (fst (process_message tech_stack self)) in
       state after = COLLECT_TECH_STACK /\
       candidate_data after !! "tech_stack" = candidate_data self !! "tech_stack").
Proof.
  intros Hclaim.
  destruct (Hclaim (Scripted.runtime [Some "1. Why?"])
              (mkChatbot [] COLLECT_TECH_STACK (<["name" := VStr "Ada"]> ∅) [] 0)
              "Python, Django" "1. Why?"
              eq_refl eq_refl eq_refl eq_refl eq_refl) as [_ Hdata].
  vm_compute in Hdata. discriminate Hdata.
Qed.

Lemma too_few_questions_does_not_advance_witness :
  process_message (H := Scripted.runtime [Some "1. Why?"]) "Python, Django"
    (mkChatbot [] COLLECT_TECH_STACK (<["name" := VStr "Ada"]> ∅) [] 0) =
  (Ok not_enough_questions,
   mkChatbot
     [(question_prompt_of (H := Scripted.runtime [Some "1. Why?"])
         (mkChatbot [] COLLECT_TECH_STACK (<["name" := VStr "Ada"]> ∅) [] 0)
         "Python, Django",
       Some "1. Why?")]
     COLLECT_TECH_STACK
     (<["tech_stack" := VStr "Python, Django"]> (<["name" := VStr "Ada"]> ∅))
     [] 0,
   []).
Proof.
  refine (too_few_questions_does_not_advance
            (H := Scripted.runtime [Some "1. Why?"])
            (mkChatbot [] COLLECT_TECH_STACK (<["name" := VStr "Ada"]> ∅) [] 0)
            "Python, Django" "1. Why?" _ _ _ _ _ _ _).
  - reflexivity.
  - reflexivity.
  - reflexivity.
  - reflexivity.
  - reflexivity.
  - reflexivity.
  - vm_compute. reflexivity.
Defined.

(** ** The last answer *)

Section LastAnswer.

Context `{Runtime}.

Lemma process_answer (self : HiringAssistantChatbot) (answer : string) :
  taken_as_answer self answer ->
  process_message answer self = _handle_technical_question answer self.
Proof.
  intros (Hstate & Hexit & Hready).
  unfold process_message. rewrite Hexit.
  unfold bind at 1. unfold get_self at 1. rewrite Hstate, Hready.
  destruct (_handle_technical_question answer self) as [[r after] w].
  reflexivity.
Qed.

Lemma last_question_no_next (self : HiringAssistantChatbot) :
  current_question_index self + 1 = length (technical_questions self) ->
  technical_questions self !! (current_question_index self + 1) = None.
Proof. intros Hlast. apply lookup_ge_None. lia. Qed.

(** When the evaluation of the last answer fails, the text returned is the
    text of the conclusion and nothing else. *)
Lemma last_answer_not_evaluated (self : HiringAssistantChatbot)
    (answer : string) (current_q : Question) (tech_stack : Value)
    (entries : list QA) :
  taken_as_answer self answer ->
  technical_questions self !! current_question_index self = Some current_q ->
  current_question_index self + 1 = length (technical_questions self) ->
  candidate_data self !! "tech_stack" = Some tech_stack ->
  candidate_data self !! "technical_qa" = Some (VList entries) ->
  send_message (chat self) (evaluation_prompt_of current_q answer tech_stack)
  = None ->
  process_message answer self =
  (let '(r, after, w) :=
     _conclude_conversation
       (answered self (evaluation_prompt_of current_q answer tech_stack) None
          (entries ++
           [mkQA (technology current_q) (question current_q)
                 (PyStr.strip answer) None None])) in
   (r, after, CONCLUSION :: w)).
Proof.
  intros Htaken Hq Hlast Hstack Hqa Hsend.
  rewrite (process_answer _ _ Htaken).
  unfold _handle_technical_question.
  unfold bind at 1. unfold get_self at 1. rewrite Hq, Hstack.
  fold (evaluation_prompt_of current_q answer tech_stack).
  unfold try_except, evaluate_answer.
  unfold bind at 1. unfold chat_send at 1. rewrite Hsend.
  unfold record_unevaluated, append_technical_qa.
  cbv [bind get_self set_candidate_data set_current_question_index].
  cbn [chat state candidate_data technical_questions current_question_index].
  rewrite Hqa.
  cbn [chat state candidate_data technical_questions current_question_index].
  rewrite (last_question_no_next _ Hlast).
  cbv [set_state].
  cbn [chat state candidate_data technical_questions current_question_index].
  unfold answered.
  destruct (_conclude_conversation _) as [[r after] w]. reflexivity.
Qed.

(** When the evaluation of the last answer succeeds, the text returned is
    the acknowledgment, the summary and the text of the conclusion, and the
    state is assigned [CONCLUSION] and then [ENDED]. *)
Lemma last_answer_evaluated (self : HiringAssistantChatbot)
    (answer text : string) (current_q : Question) (tech_stack : Value)
    (entries : list QA) :
  taken_as_answer self answer ->
  technical_questions self !! current_question_index self = Some current_q ->
  current_question_index self + 1 = length (technical_questions self) ->
  candidate_data self !! "tech_stack" = Some tech_stack ->
  candidate_data self !! "technical_qa" = Some (VList entries) ->
  send_message (chat self) (evaluation_prompt_of current_q answer tech_stack)
  = Some text ->
  exists (score acknowledgment conclusion : string)
         (after : HiringAssistantChatbot),
    parse_evaluation (PyStr.split "010" text) "N/A" "Thank you for your answer."
    = Ok (score, acknowledgment) /\
    process_message answer self =
    (Ok (acknowledgment ++
         interview_summary
           (entries ++
            [mkQA (technology current_q) (question current_q)
                  (PyStr.strip answer) (Some text) (Some score)]) ++
         conclusion),
     after, [CONCLUSION; ENDED]) /\
    state after = ENDED /\
    current_question_index after = length (technical_questions after).
Proof.
  intros Htaken Hq Hlast Hstack Hqa Hsend.
  destruct (parse_evaluation_ok (PyStr.split "010" text)
              "N/A" "Thank you for your answer.") as (score & ack & Hparse).
  set (entry := mkQA (technology current_q) (question current_q)
                     (PyStr.strip answer) (Some text) (Some score)).
  destruct (conclude_ends
              (answered self (evaluation_prompt_of current_q answer tech_stack)
                 (Some text) (entries ++ [entry])))
    as (conclusion & after & Hconclude & Hended & Hqs & Hidx).
  exists score, ack, conclusion, after.
  split; [exact Hparse|].
  split; [|split; [exact Hended|]].
  - rewrite (process_answer _ _ Htaken).
    unfold _handle_technical_question.
    unfold bind at 1. unfold get_self at 1. rewrite Hq, Hstack.
    fold (evaluation_prompt_of current_q answer tech_stack).
    unfold try_except, evaluate_answer.
    unfold bind at 1. unfold chat_send at 1. rewrite Hsend.
    unfold bind at 1. unfold lift at 1. rewrite Hparse.
    unfold append_technical_qa, technical_qa_list.
    cbv [bind get_self set_candidate_data set_current_question_index].
    cbn [chat state candidate_data technical_questions current_question_index].
    rewrite Hqa.
    cbn [chat state candidate_data technical_questions current_question_index].
    rewrite (last_question_no_next _ Hlast).
    cbn [chat state candidate_data technical_questions current_question_index].
    rewrite lookup_insert_eq.
    cbv [set_state ret].
    cbn [chat state candidate_data technical_questions current_question_index].
    fold entry.
    unfold answered in Hconclude. rewrite Hconclude. reflexivity.
  - rewrite Hidx, Hqs. unfold answered. simpl. exact Hlast.
Qed.

End LastAnswer.

(** C4, on a failing input.  The session has one question left and the call
    for the evaluation of its answer fails; the call for the decision then
    succeeds.  The index reaches the number of questions and the state is
    assigned [CONCLUSION] and then [ENDED], but the text returned is the
    closing message alone: it has neither an acknowledgment of the answer
    nor the summary block. *)
Theorem last_answer_unevaluated_has_no_summary :
  let script :=
    [None; Some ("DECISION: SCREEN IN" ++ PyStr.nl ++ "MESSAGE: Well done.")] in
  let self :=
    mkChatbot [] ASK_TECHNICAL_QUESTIONS
      (<["technical_qa" := VList []]>
         (<["tech_stack" := VStr "Python"]> (<["name" := VStr "Ada"]> ∅)))
      [mkQuestion "General" "How do you ensure code quality in your projects?"]
      0 in
  let '(r, after, assigned) :=
    process_message (H := Scripted.runtime script) "I write unit tests" self in
  r = Ok (Prompts.get_conclusion_prompt "Ada" "SCREEN IN" "Well done.") /\
  current_question_index after = length (technical_questions after) /\
  assigned = [CONCLUSION; ENDED] /\
  state after = ENDED /\
  match r with
  | Ok text =>
      PyStr.contains "Interview Summary" text = false /\
      PyStr.contains "Questions answered" text = false /\
      PyStr.contains "Thank you for your answer" text = false /\
      PyStr.contains (Prompts.get_question_acknowledgment 0) text = false
  | Raise _ => False
  end.
Proof. vm_compute. repeat split; reflexivity. Qed.

(** ** The candidate record store *)

Lemma collect_candidates_ok (files : gmap string DataHandler.Node)
    (names : list string) :
  forall candidates : list DataHandler.Json,
    forallb (entry_ok files) names = true ->
    DataHandler.collect_candidates names files candidates =
    Ok (candidates ++ omap (record_of files) names)%list.
Proof.
  induction names as [|filename names IH]; intros candidates Hok.
  - simpl. now rewrite app_nil_r.
  - cbn [forallb] in Hok. apply andb_true_iff in Hok as [Hentry Hok].
    cbn [DataHandler.collect_candidates omap list_omap].
    change (list_omap _ _ (record_of files) names)
      with (omap (record_of files) names).
    unfold entry_ok, loadable in Hentry. unfold record_of at 1.
    unfold DataHandler.load_candidate, DataHandler.read_json.
    destruct (PyStr.endswith ".json" filename); [|now apply IH].
    cbn [negb orb] in Hentry.
    destruct (files !! DataHandler.join DataHandler.CANDIDATES_DIR filename)
      as [[| | |[j|]]|]; try discriminate Hentry; try now apply IH.
    destruct (DataHandler.truthy j); [|now apply IH].
    rewrite (IH _ Hok). now rewrite <- app_assoc.
Qed.

Lemma collect_candidates_raises (files : gmap string DataHandler.Node)
    (names : list string) :
  forall candidates : list DataHandler.Json,
    forallb (entry_ok files) names = false ->
    exists e, DataHandler.collect_candidates names files candidates = Raise e.
Proof.
  induction names as [|filename names IH]; intros candidates Hbad.
  - discriminate Hbad.
  - cbn [forallb] in Hbad.
    cbn [DataHandler.collect_candidates].
    unfold entry_ok at 1 in Hbad. unfold loadable in Hbad.
    unfold DataHandler.load_candidate, DataHandler.read_json.
    destruct (PyStr.endswith ".json" filename); [|now apply IH].
    cbn [negb orb] in Hbad.
    destruct (files !! DataHandler.join DataHandler.CANDIDATES_DIR filename)
      as [[| | |[j|]]|]; cbn [andb] in Hbad;
      try (now eexists); try now apply IH.
    destruct (DataHandler.truthy j); now apply IH.
Qed.

(** C9, as stated, fails: a [.json] file that does not hold a JSON document
    makes [get_all_candidates] raise, whatever the other files hold. *)
Lemma corrupt_record_counterexample :
  ~ (forall files : gmap string DataHandler.Node,
       files !! DataHandler.CANDIDATES_DIR = Some DataHandler.Directory ->
       exists records, DataHandler.get_all_candidates files = Ok records).
Proof.
  intros Hclaim.
  set (files :=
         <["data/candidates/broken.json" :=
             DataHandler.Regular DataHandler.Garbage]>
           (<["data/candidates/ada_20261103_173105.json" :=
                DataHandler.Regular
                  (DataHandler.Document
                     (DataHandler.dict_to_json (<["name" := VStr "Ada"]> ∅)))]>
              (<["data/candidates" := DataHandler.Directory]>
                 (∅ : gmap string DataHandler.Node)))).
  assert (Hdir : files !! DataHandler.CANDIDATES_DIR
                 = Some DataHandler.Directory)
    by (vm_compute; reflexivity).
  destruct (Hclaim files Hdir) as [records Hrecords].
  vm_compute in Hrecords. discriminate Hrecords.
Qed.

(** C9, amended.  [get_all_candidates] goes through the names of the storage
    directory and skips the names that do not end in [.json], the entries
    that are not there any more, and the documents that are empty; it returns
    the other documents in the order of the listing.  It does not skip a
    [.json] entry that is there but cannot be opened or does not hold a JSON
    document: the error of the first such entry is raised and no list is
    returned. *)
Theorem get_all_candidates_skips_or_raises
    (files : gmap string DataHandler.Node) :
  match DataHandler.listdir DataHandler.CANDIDATES_DIR files with
  | Raise e => DataHandler.get_all_candidates files = Raise e
  | Ok names =>
      if forallb (entry_ok files) names
      then DataHandler.get_all_candidates files =
           Ok (omap (record_of files) names)
      else exists e, DataHandler.get_all_candidates files = Raise e
  end.
Proof.
  unfold DataHandler.get_all_candidates.
  destruct (DataHandler.listdir DataHandler.CANDIDATES_DIR files)
    as [names|e]; [|reflexivity].
  destruct (forallb (entry_ok files) names) eqn:Hok.
  - now rewrite collect_candidates_ok.
  - now apply collect_candidates_raises.
Qed.




(** ** What one call does to the object *)

Ltac run_method :=
  cbv [bind ret raise lift get_self set_state set_candidate_data
       set_technical_questions set_current_question_index try_except
       chat_send append_technical_qa technical_qa_list];
  cbn [chat state candidate_data technical_questions current_question_index].

Ltac case_innermost :=
  match goal with
  | |- context [match ?x with _ => _ end] =>
      lazymatch x with
      | context [match _ with _ => _ end] => fail
      | _ => destruct x eqn:?
      end
  end.

Ltac no_call := exists []; rewrite app_nil_r; split; [reflexivity|simpl; lia].

Ltac one_call :=
  eexists [_]; split; [reflexivity|simpl; lia].

Ltac settle_moved_on Hstate :=
  unfold moved_on;
  cbn [chat state candidate_data technical_questions current_question_index];
  rewrite ?Hstate; cbn [next_state];
  repeat split; auto; try set_solver; try (intros; simpl; lia);
  try (intros; congruence);
  first [no_call | one_call].

Lemma moved_on_refl (n : nat) (self : HiringAssistantChatbot) :
  moved_on n self self.
Proof.
  unfold moved_on. repeat split; auto. no_call.
Qed.

Lemma moved_on_weaken (n m : nat) (self after : HiringAssistantChatbot) :
  n <= m -> moved_on n self after -> moved_on m self after.
Proof.
  intros Hnm (Hs & Hn & Hd & Hi & calls & Hc & Hl).
  repeat split; auto. exists calls. split; [assumption|lia].
Qed.

Section Steps.

Context `{Runtime}.

Lemma collect_name_step (self : HiringAssistantChatbot) (name : string) :
  state self = COLLECT_NAME ->
  let '(_, after, _) := _collect_name name self in moved_on 0 self after.
Proof.
  intros Hstate. unfold _collect_name.
  destruct (Validators.validate_name name) as [[] e]; cbn [negb]; run_method;
    repeat case_innermost; settle_moved_on Hstate.
Qed.

Lemma collect_email_step (self : HiringAssistantChatbot) (email : string) :
  state self = COLLECT_EMAIL ->
  let '(_, after, _) := _collect_email email self in moved_on 0 self after.
Proof.
  intros Hstate. unfold _collect_email.
  destruct (Validators.validate_email email) as [[] e]; cbn [negb]; run_method;
    repeat case_innermost; settle_moved_on Hstate.
Qed.

Lemma collect_phone_step (self : HiringAssistantChatbot) (phone : string) :
  state self = COLLECT_PHONE ->
  let '(_, after, _) := _collect_phone phone self in moved_on 0 self after.
Proof.
  intros Hstate. unfold _collect_phone.
  destruct (Validators.validate_phone phone) as [[] e]; cbn [negb]; run_method;
    repeat case_innermost; settle_moved_on Hstate.
Qed.

Lemma collect_experience_step (self : HiringAssistantChatbot)
    (experience : string) :
  state self = COLLECT_EXPERIENCE ->
  let '(_, after, _) := _collect_experience experience self in
  moved_on 0 self after.
Proof.
  intros Hstate. unfold _collect_experience.
  destruct (Validators.validate_experience experience) as [[] e];
    cbn [negb]; run_method; repeat case_innermost; settle_moved_on Hstate.
Qed.

Lemma collect_position_step (self : HiringAssistantChatbot)
    (position : string) :
  state self = COLLECT_POSITION ->
  let '(_, after, _) := _collect_position position self in
  moved_on 0 self after.
Proof.
  intros Hstate. unfold _collect_position.
  destruct (Validators.validate_non_empty position "Position") as [[] e];
    cbn [negb]; run_method; repeat case_innermost; settle_moved_on Hstate.
Qed.

Lemma collect_location_step (self : HiringAssistantChatbot)
    (location : string) :
  state self = COLLECT_LOCATION ->
  let '(_, after, _) := _collect_location location self in
  moved_on 0 self after.
Proof.
  intros Hstate. unfold _collect_location.
  destruct (Validators.validate_non_empty location "Location") as [[] e];
    cbn [negb]; run_method; repeat case_innermost; settle_moved_on Hstate.
Qed.

Lemma collect_tech_stack_step (self : HiringAssistantChatbot)
    (tech_stack : string) :
  state self = COLLECT_TECH_STACK ->
  let '(_, after, _) := _collect_tech_stack tech_stack self in
  moved_on 1 self after.
Proof.
  intros Hstate. unfold _collect_tech_stack, generate_questions.
  destruct (Validators.validate_non_empty tech_stack "Tech stack") as [[] e];
    cbn [negb]; cbv zeta; run_method;
    repeat case_innermost; settle_moved_on Hstate.
Qed.

Lemma greeting_step (self : HiringAssistantChatbot) :
  state self = GREETING ->
  let '(_, after, _) := get_greeting self in moved_on 1 self after.
Proof.
  intros Hstate. unfold get_greeting. run_method.
  repeat case_innermost; settle_moved_on Hstate.
Qed.

Lemma show_question_step (self : HiringAssistantChatbot) :
  let '(_, after, _) := _show_current_question self in moved_on 0 self after.
Proof.
  unfold _show_current_question. run_method.
  repeat case_innermost; apply moved_on_refl.
Qed.

End Steps.

Section AnswerSteps.

Context `{Runtime}.

(** The conclusion, seen from the object it starts from. *)
Lemma conclude_step (self : HiringAssistantChatbot) :
  let '(r, after, _) := _conclude_conversation self in
  (exists text, r = Ok text) /\
  state after = ENDED /\
  dom (candidate_data self) ⊆ dom (candidate_data after) /\
  technical_questions after = technical_questions self /\
  current_question_index after = current_question_index self /\
  exists calls, chat after = (chat self ++ calls)%list /\ length calls <= 1.
Proof.
  rewrite conclude_unfold. unfold concluded, with_state.
  repeat case_innermost;
    cbn [chat state candidate_data technical_questions current_question_index];
    (split; [now eexists|]);
    repeat split; auto; try set_solver; first [no_call | one_call].
Qed.

Ltac use_conclusion :=
  match goal with
  | E : _conclude_conversation ?start = _ |- _ =>
      let Hc := fresh "Hc" in
      pose proof (conclude_step start) as Hc; rewrite E in Hc;
      cbn [chat state candidate_data technical_questions
           current_question_index] in Hc;
      destruct Hc as ((text & Htext) & Hended & Hdom & Hqs & Hidx &
                      calls & Hchat & Hcalls);
      try discriminate Htext
  end.

Ltac conclusion_never_raises :=
  match goal with
  | E : _conclude_conversation ?start = (Raise _, _, _) |- _ =>
      let Hc := fresh "Hc" in
      exfalso; pose proof (conclude_step start) as Hc; rewrite E in Hc;
      destruct Hc as ((text & Htext) & _); discriminate Htext
  end.

Ltac list_bounds :=
  repeat match goal with
         | E : technical_questions _ !! _ = Some _ |- _ =>
             apply lookup_lt_Some in E
         end.

Lemma handle_question_step (self : HiringAssistantChatbot) (answer : string) :
  state self = ASK_TECHNICAL_QUESTIONS ->
  let '(_, after, _) := _handle_technical_question answer self in
  moved_on 2 self after.
Proof.
  intros Hstate.
  unfold _handle_technical_question, evaluate_answer, record_unevaluated.
  run_method.
  repeat (case_innermost;
          cbn [chat state candidate_data technical_questions
               current_question_index] in *);
    try apply moved_on_refl.
  all: try conclusion_never_raises.
  all: try use_conclusion.
  all: list_bounds.
  all: unfold moved_on;
    cbn [chat state candidate_data technical_questions current_question_index].
  all: rewrite ?Hstate, ?Hended, ?Hqs, ?Hidx, ?Hchat; cbn [next_state].
  all: repeat split; auto; try (intros; lia); try (intros; congruence);
    try (etransitivity; [|exact Hdom]; set_solver); try set_solver.
  all: try (rewrite <- app_assoc; eexists (_ :: calls); split;
            [reflexivity|simpl; lia]).
  all: try one_call.
Qed.

End AnswerSteps.

Section CallSteps.

Context `{Runtime}.

Ltac by_step lemma :=
  let Hstep := fresh "Hstep" in
  pose proof lemma as Hstep;
  match type of Hstep with
  | context [match ?run with _ => _ end] =>
      destruct run as [[r after] w]
  end;
  cbv beta iota in Hstep |- *;
  first [exact Hstep
        | eapply moved_on_weaken; [|exact Hstep]; lia].

(** Every call of [process_message], seen from the object it starts from. *)
Lemma process_message_step (self : HiringAssistantChatbot)
    (user_message : string) :
  let '(_, after, _) := process_message user_message self in
  moved_on 2 self after.
Proof.
  unfold process_message.
  destruct (check_exit_intent user_message).
  - run_method. unfold moved_on.
    cbn [chat state candidate_data technical_questions current_question_index].
    repeat split; auto; try congruence. no_call.
  - unfold bind at 1. unfold get_self at 1.
    destruct (state self) eqn:Hstate.
    + by_step (greeting_step self Hstate).
    + by_step (collect_name_step self user_message Hstate).
    + by_step (collect_email_step self user_message Hstate).
    + by_step (collect_phone_step self user_message Hstate).
    + by_step (collect_experience_step self user_message Hstate).
    + by_step (collect_position_step self user_message Hstate).
    + by_step (collect_location_step self user_message Hstate).
    + by_step (collect_tech_stack_step self user_message Hstate).
    + destruct (_ && _).
      * by_step (show_question_step self).
      * by_step (handle_question_step self user_message Hstate).
    + pose proof (conclude_step self) as Hstep.
      destruct (_conclude_conversation self) as [[r after] w].
      destruct Hstep as (_ & Hended & Hdom & Hqs & Hidx & calls & Hchat & Hcalls).
      unfold moved_on. rewrite Hended, Hqs, Hidx.
      repeat split; auto; try congruence.
      exists calls. split; [assumption|lia].
    + run_method. apply moved_on_refl.
Qed.

Lemma process_message_in_conclusion (self : HiringAssistantChatbot)
    (user_message : string) :
  state self = CONCLUSION ->
  let '(_, after, _) := process_message user_message self in
  state after = ENDED.
Proof.
  intros Hstate. unfold process_message.
  destruct (check_exit_intent user_message).
  - reflexivity.
  - unfold bind at 1. unfold get_self at 1. rewrite Hstate.
    pose proof (conclude_step self) as Hconclude.
    destruct (_conclude_conversation self) as [[r after] w].
    apply Hconclude.
Qed.

(** X1.  After a call of [process_message] the state is the state before,
    the state that follows it, or [ENDED]; and it is never [CONCLUSION]: the
    call that reaches the conclusion runs it to [ENDED]. *)
Theorem state_only_moves_forward (self : HiringAssistantChatbot)
    (user_message : string) :
  let '(_, after, _) := process_message user_message self in
  (state after = state self \/ state after = next_state (state self) \/
   state after = ENDED) /\
  state after <> CONCLUSION.
Proof.
  pose proof (process_message_step self user_message) as Hstep.
  pose proof (process_message_in_conclusion self user_message) as Hconclusion.
  destruct (process_message user_message self) as [[r after] w].
  destruct Hstep as (Hforward & Hnot & _).
  split; [exact Hforward|].
  destruct (state self) eqn:Hstate;
    try (apply Hnot; congruence).
  rewrite (Hconclusion eq_refl). congruence.
Qed.

(** X2.  A call of [process_message] never removes a key from the candidate
    data: what was collected stays collected, whatever the message and
    whatever the completion service does. *)
Theorem candidate_data_keys_are_kept (self : HiringAssistantChatbot)
    (user_message : string) :
  let '(_, after, _) := process_message user_message self in
  dom (candidate_data self) ⊆ dom (candidate_data after).
Proof.
  pose proof (process_message_step self user_message) as Hstep.
  destruct (process_message user_message self) as [[r after] w].
  apply Hstep.
Qed.

(** X3.  A call of [process_message] makes at most two calls to the chat
    session (the evaluation of the last answer and the decision), and the
    record of the earlier calls is not touched. *)
Theorem at_most_two_calls_per_message (self : HiringAssistantChatbot)
    (user_message : string) :
  let '(_, after, _) := process_message user_message self in
  exists calls,
    chat after = (chat self ++ calls)%list /\ length calls <= 2.
Proof.
  pose proof (process_message_step self user_message) as Hstep.
  destruct (process_message user_message self) as [[r after] w].
  apply Hstep.
Qed.

Lemma converse_index_bound (messages : list string) :
  forall self : HiringAssistantChatbot,
    current_question_index self <= length (technical_questions self) ->
    current_question_index (snd (converse messages self))
    <= length (technical_questions (snd (converse messages self))).
Proof.
  induction messages as [|user_message messages IH]; intros self Hbound.
  - exact Hbound.
  - cbn [converse].
    pose proof (process_message_step self user_message) as Hstep.
    destruct (process_message user_message self) as [[r after] w].
    destruct Hstep as (_ & _ & _ & Hindex & _).
    specialize (IH after (Hindex Hbound)).
    destruct (converse messages after) as [rs final]. exact IH.
Qed.

(** X4.  In every conversation that starts from a new chatbot, after any
    number of messages, the question index is at most the number of
    questions. *)
Theorem question_index_stays_in_bounds (messages : list string) :
  current_question_index (snd (converse messages fresh_chatbot))
  <= length (technical_questions (snd (converse messages fresh_chatbot))).
Proof.
  apply converse_index_bound. simpl. lia.
Qed.

End CallSteps.

(** ** The plain fields *)

Section PlainFields.

Context `{Runtime}.

(** X5.  In the six states that collect a plain field (name, email, phone,
    experience, position, location), an ASCII message without exit keyword
    is either rejected -- the reply is a text, the object is exactly as before
    and the state is not assigned -- or accepted -- the trimmed message is
    stored under the key of the field and the state becomes the next one;
    nothing else changes, and the chat session is not called. *)
Theorem plain_field_rejected_or_stored (self : HiringAssistantChatbot)
    (user_message key : string) :
  PyStr.isascii user_message = true ->
  field_key (state self) = Some key ->
  check_exit_intent user_message = false ->
  let '(r, after, assigned) := process_message user_message self in
  (after = self /\ assigned = [] /\ exists error, r = Ok error) \/
  (after = mkChatbot (chat self) (next_state (state self))
                     (<[key := VStr (PyStr.strip user_message)]>
                        (candidate_data self))
                     (technical_questions self) (current_question_index self)
   /\ assigned = [next_state (state self)]).
Proof.
  intros _ Hkey Hexit. unfold process_message. rewrite Hexit.
  unfold bind at 1. unfold get_self at 1.
  destruct self as [log st data qs idx].
  cbn [chat state candidate_data technical_questions current_question_index]
    in *.
  destruct st; try discriminate Hkey; injection Hkey as <-;
    cbn [next_state].
  - unfold _collect_name.
    destruct (Validators.validate_name user_message) as [[] e]; cbn [negb];
      run_method; repeat case_innermost; eauto 6.
  - unfold _collect_email.
    destruct (Validators.validate_email user_message) as [[] e]; cbn [negb];
      run_method; repeat case_innermost; eauto 6.
  - unfold _collect_phone.
    destruct (Validators.validate_phone user_message) as [[] e]; cbn [negb];
      run_method; repeat case_innermost; eauto 6.
  - unfold _collect_experience.
    destruct (Validators.validate_experience user_message) as [[] e];
      cbn [negb]; run_method; repeat case_innermost; eauto 6.
  - unfold _collect_position.
    destruct (Validators.validate_non_empty user_message "Position")
      as [[] e]; cbn [negb]; run_method; repeat case_innermost; eauto 6.
  - unfold _collect_location.
    destruct (Validators.validate_non_empty user_message "Location")
      as [[] e]; cbn [negb]; run_method; repeat case_innermost; eauto 6.
Qed.

End PlainFields.

Lemma plain_field_rejected_or_stored_witness :
  let self := mkChatbot [] COLLECT_PHONE (<["name" := VStr "Ada"]> ∅) [] 0 in
  let '(r, after, assigned) :=
    process_message (H := Scripted.runtime []) " 555 123 4567 " self in
  (after = self /\ assigned = [] /\ exists error, r = Ok error) \/
  (after = mkChatbot [] COLLECT_EXPERIENCE
                     (<["phone" := VStr "555 123 4567"]>
                        (<["name" := VStr "Ada"]> ∅)) [] 0
   /\ assigned = [COLLECT_EXPERIENCE]).
Proof.
  exact (plain_field_rejected_or_stored (H := Scripted.runtime [])
           (mkChatbot [] COLLECT_PHONE (<["name" := VStr "Ada"]> ∅) [] 0)
           " 555 123 4567 " "phone" eq_refl eq_refl eq_refl).
Defined.

(** ** The name and its greeting *)

Lemma words_from_nonempty (s : string) :
  forall cur, PyStr.nonempty cur = true -> PyStr.words_from cur s <> [].
Proof.
  induction s as [|a s IH]; intros cur Hcur; simpl.
  - now rewrite Hcur.
  - destruct (PyStr.is_space a).
    + now rewrite Hcur.
    + apply IH. now destruct cur.
Qed.

Lemma words_from_some (s : string) :
  forall cur,
    PyStr.sany (fun c => negb (PyStr.is_space c)) s = true ->
    PyStr.words_from cur s <> [].
Proof.
  induction s as [|a s IH]; intros cur Hs; simpl in *; [discriminate|].
  destruct (PyStr.is_space a); cbn [negb orb] in Hs.
  - destruct (PyStr.nonempty cur); [discriminate|now apply IH].
  - apply words_from_nonempty. now destruct cur.
Qed.

Lemma drop_while_some (p : ascii -> bool) (s : string) :
  PyStr.drop_while p s <> "" ->
  PyStr.sany (fun c => negb (p c)) s = true.
Proof.
  induction s as [|a s IH]; simpl; [congruence|].
  destruct (p a); cbn [negb orb]; auto.
Qed.

Lemma strip_nonempty_has_word (s : string) :
  PyStr.strip s <> "" -> PyStr.words s <> [].
Proof.
  intros Hstrip. apply words_from_some, drop_while_some.
  intros Hdrop. apply Hstrip. unfold PyStr.strip, PyStr.lstrip.
  now rewrite Hdrop.
Qed.

(** X6.  An ASCII name that [validate_name] accepts has a first word, so
    the question for the email never raises on it and greets the candidate
    by that word. *)
Theorem accepted_name_is_greeted (name : string) :
  PyStr.isascii name = true ->
  fst (Validators.validate_name name) = true ->
  exists first others,
    PyStr.words name = first :: others /\
    Prompts.get_info_collection_prompt "email" name =
    Ok (PyStr.concat ["Thank you"; ", " ++ first;
                      "! Could you please provide your email address?"]).
Proof.
  unfold Validators.validate_name. intros _ Hvalid.
  destruct (negb (PyStr.nonempty name) ||
            Nat.ltb (PyStr.len (PyStr.strip name)) 2) eqn:Hcheck;
    [discriminate Hvalid|].
  apply orb_false_iff in Hcheck as [Hname Hlen].
  apply negb_false_iff in Hname. apply Nat.ltb_ge in Hlen.
  assert (Hwords : PyStr.words name <> []).
  { apply strip_nonempty_has_word. intros Hempty.
    rewrite Hempty in Hlen. simpl in Hlen. lia. }
  destruct (PyStr.words name) as [|first others] eqn:Hw; [congruence|].
  exists first, others. split; [reflexivity|].
  unfold Prompts.get_info_collection_prompt. rewrite Hname, Hw.
  f_equal.
Qed.

Lemma accepted_name_is_greeted_witness :
  exists first others,
    PyStr.words " Ada Lovelace" = first :: others /\
    Prompts.get_info_collection_prompt "email" " Ada Lovelace" =
    Ok (PyStr.concat ["Thank you"; ", " ++ first;
                      "! Could you please provide your email address?"]).
Proof.
  exact (accepted_name_is_greeted " Ada Lovelace" eq_refl eq_refl).
Defined.

(** ** The ended session, message after message *)

Section Ended.

Context `{Runtime}.

Lemma ended_call (self : HiringAssistantChatbot) (user_message : string) :
  state self = ENDED ->
  exists text assigned,
    process_message user_message self = (Ok text, self, assigned).
Proof.
  intros Hstate.
  destruct (check_exit_intent user_message) eqn:Hexit.
  - rewrite process_message_exit by assumption.
    rewrite <- Hstate, with_state_same. now eexists _, _.
  - unfold process_message. rewrite Hexit.
    unfold bind, get_self. rewrite Hstate. now eexists _, _.
Qed.

(** X7.  [ENDED] is final: after any sequence of further messages the
    object, with its state and its candidate data, is the one the session
    ended with, every message got a reply and none raised. *)
Theorem ended_session_stays_ended (messages : list string)
    (self : HiringAssistantChatbot) :
  state self = ENDED ->
  snd (converse messages self) = self /\
  length (fst (converse messages self)) = length messages /\
  Forall (fun r => exists text, r = Ok text) (fst (converse messages self)).
Proof.
  intros Hstate. induction messages as [|m messages IH]; cbn [converse].
  - repeat split. constructor.
  - destruct (ended_call self m Hstate) as (text & assigned & ->).
    destruct (converse messages self) as [rs final].
    cbn [fst snd] in *. destruct IH as (-> & Hlen & Hall).
    repeat split; [simpl; now rewrite Hlen|].
    constructor; [now exists text|assumption].
Qed.

End Ended.

Lemma ended_session_stays_ended_witness :
  let self := mkChatbot [] ENDED (<["name" := VStr "Ada"]> ∅) [] 0 in
  let run := converse (H := Scripted.runtime []) ["hello"; "bye"; "ready"] self in
  snd run = self /\
  length (fst run) = 3 /\
  Forall (fun r => exists text, r = Ok text) (fst run).
Proof.
  exact (ended_session_stays_ended (H := Scripted.runtime [])
           ["hello"; "bye"; "ready"]
           (mkChatbot [] ENDED (<["name" := VStr "Ada"]> ∅) [] 0) eq_refl).
Defined.

(** ** The labelled lines, again *)

(** X8.  The two loops over labelled lines never raise, whatever the reply:
    a line that shows a label has a colon, so the text after its first colon
    exists. *)
Theorem label_parsing_never_raises (reply score acknowledgment
    decision reasoning message : string) :
  (exists s a,
     parse_evaluation (PyStr.split "010" reply) score acknowledgment
     = Ok (s, a)) /\
  (exists d r m,
     parse_decision (PyStr.split "010" reply) decision reasoning message
     = Ok (d, r, m)).
Proof.
  split.
  - apply parse_evaluation_ok.
  - destruct (parse_decision_ok (PyStr.split "010" reply)
                decision reasoning message) as (d & r & m & Hparse & _).
    now exists d, r, m.
Qed.

Lemma parse_evaluation_app (before after : list string) :
  forall score acknowledgment : string,
    parse_evaluation (before ++ after) score acknowledgment =
    match parse_evaluation before score acknowledgment with
    | Ok (s, a) => parse_evaluation after s a
    | Raise e => Raise e
    end.
Proof.
  induction before as [|line before IH]; intros score acknowledgment.
  - reflexivity.
  - cbn [app parse_evaluation].
    destruct (PyStr.contains "SCORE:" _).
    { destruct (after_colon line); [apply IH|reflexivity]. }
    destruct (PyStr.contains "ACKNOWLEDGMENT:" _); [|apply IH].
    destruct (after_colon line); [apply IH|reflexivity].
Qed.

Lemma parse_evaluation_keeps_score (lines : list string) :
  forall score acknowledgment : string,
    forallb (fun line => negb (PyStr.contains "SCORE:" (PyStr.upper line)))
            lines = true ->
    exists a, parse_evaluation lines score acknowledgment = Ok (score, a).
Proof.
  induction lines as [|line lines IH]; intros score acknowledgment Hnone.
  - now exists acknowledgment.
  - cbn [forallb] in Hnone. apply andb_true_iff in Hnone as [Hline Hnone].
    apply negb_true_iff in Hline. cbn [parse_evaluation]. rewrite Hline.
    destruct (PyStr.contains "ACKNOWLEDGMENT:" _) eqn:Hack; [|now apply IH].
    destruct (after_colon_ok "ACKNOWLEDGMENT:" _ eq_refl Hack) as [v ->].
    now apply IH.
Qed.

(** X9.  When several lines of an ASCII evaluation show the label
    [SCORE:], the last of them gives the score: the text after its first
    colon, trimmed. *)
Theorem last_score_line_wins (before after : list string)
    (line score acknowledgment : string) :
  forallb PyStr.isascii (before ++ line :: after) = true ->
  PyStr.contains "SCORE:" (PyStr.upper line) = true ->
  forallb (fun l => negb (PyStr.contains "SCORE:" (PyStr.upper l))) after
  = true ->
  exists text a,
    PyStr.split1 ":" line !! 1%nat = Some text /\
    parse_evaluation (before ++ line :: after) score acknowledgment
    = Ok (PyStr.strip text, a).
Proof.
  intros _ Hline Hafter.
  destruct (after_colon_ok "SCORE:" _ eq_refl Hline) as [v Hv].
  unfold after_colon in Hv.
  destruct (PyStr.split1 ":" line !! 1%nat) as [text|] eqn:Htext;
    [|discriminate Hv].
  injection Hv as <-.
  rewrite parse_evaluation_app.
  destruct (parse_evaluation_ok before score acknowledgment)
    as (s & a & ->).
  cbn [parse_evaluation]. rewrite Hline. unfold after_colon. rewrite Htext.
  destruct (parse_evaluation_keeps_score after (PyStr.strip text) a Hafter)
    as [a' ->].
  now exists text, a'.
Qed.

Lemma last_score_line_wins_witness :
  exists text a,
    PyStr.split1 ":" "Score: 9/10" !! 1%nat = Some text /\
    parse_evaluation (["SCORE: 3/10"] ++ "Score: 9/10" :: ["STRENGTHS: N/A"])
      "N/A" "Thank you for your answer."
    = Ok (PyStr.strip text, a).
Proof.
  exact (last_score_line_wins ["SCORE: 3/10"] ["STRENGTHS: N/A"]
           "Score: 9/10" "N/A" "Thank you for your answer."
           eq_refl eq_refl eq_refl).
Defined.

(** ** The questions *)

Lemma parse_question_line_long (raw q : string) :
  parse_question_line raw = Some q -> 10 < PyStr.len q.
Proof.
  unfold parse_question_line.
  destruct (_ && _); [|discriminate].
  destruct (PyStr.nonempty _ && Nat.ltb 10 _) eqn:Hlong; [|discriminate].
  intros [= <-]. apply andb_true_iff in Hlong as [_ Hlong].
  now apply Nat.ltb_lt in Hlong.
Qed.

Lemma parse_questions_long (generated_text : string) :
  Forall (fun q => 10 < PyStr.len q) (parse_questions generated_text).
Proof.
  unfold parse_questions. rewrite parse_questions_from. cbn [app].
  induction (PyStr.split "010" generated_text) as [|raw lines IH];
    cbn [omap list_omap]; [constructor|].
  destruct (parse_question_line raw) as [q|] eqn:Hq; [|exact IH].
  constructor; [now apply parse_question_line_long in Hq|exact IH].
Qed.

Lemma slice_to_length {A : Type} (n : Z) (l : list A) :
  (0 <= n)%Z -> length (slice_to n l) = Nat.min (Z.to_nat n) (length l).
Proof.
  intros Hn. unfold slice_to.
  destruct (Z.ltb_spec n 0); [lia|]. apply length_take.
Qed.

Section Questions.

Context `{Runtime}.

(** X10.  For a tech stack in ASCII: when the request for questions fails,
    the five general questions are used and the conversation goes on as
    after a successful request: the state is [ASK_TECHNICAL_QUESTIONS], the
    index is 0, and the list of answers is empty. *)
Theorem failed_request_uses_general_questions
    (self : HiringAssistantChatbot) (tech_stack : string) :
  PyStr.isascii tech_stack = true ->
  state self = COLLECT_TECH_STACK ->
  check_exit_intent tech_stack = false ->
  tech_stack_accepted tech_stack = true ->
  send_message (chat self) (question_prompt_of self tech_stack) = None ->
  process_message tech_stack self =
  (Ok (questions_intro tech_stack),
   asking self tech_stack None fallback_questions,
   [ASK_TECHNICAL_QUESTIONS]) /\
  length fallback_questions = 5.
Proof.
  intros _ Hstate Hexit Hacc Hreply. split; [|reflexivity].
  unfold process_message. rewrite Hexit.
  unfold bind at 1. unfold get_self at 1. rewrite Hstate.
  rewrite (collect_tech_stack_accepted _ _ Hacc).
  unfold question_prompt_of, with_tech_stack, asking in *.
  cbv [bind get_self set_candidate_data try_except generate_questions chat_send].
  cbn [chat state candidate_data technical_questions current_question_index].
  rewrite Hreply. reflexivity.
Qed.

(** X11.  For a tech stack and a reply in ASCII: when the reply to the
    request has at least the required number of accepted lines, the
    questions are the first [MAX_TECHNICAL_QUESTIONS] of them, in order,
    each marked as generated; every question has more than 10 characters
    and, for settings with [0 <= MAX] and [MIN <= MAX], their number is
    between the minimum and the maximum. *)
Theorem generated_questions_are_kept (self : HiringAssistantChatbot)
    (tech_stack reply : string) :
  PyStr.isascii tech_stack = true ->
  PyStr.isascii reply = true ->
  state self = COLLECT_TECH_STACK ->
  check_exit_intent tech_stack = false ->
  tech_stack_accepted tech_stack = true ->
  send_message (chat self) (question_prompt_of self tech_stack) = Some reply ->
  (MIN_TECHNICAL_QUESTIONS <= Z.of_nat (length (parse_questions reply)))%Z ->
  let questions :=
    map (mkQuestion "AI-Generated")
        (slice_to MAX_TECHNICAL_QUESTIONS (parse_questions reply)) in
  process_message tech_stack self =
  (Ok (questions_intro tech_stack),
   asking self tech_stack (Some reply) questions,
   [ASK_TECHNICAL_QUESTIONS]) /\
  Forall (fun q => 10 < PyStr.len (question q) /\
                   technology q = "AI-Generated") questions /\
  ((0 <= MAX_TECHNICAL_QUESTIONS)%Z ->
   (MIN_TECHNICAL_QUESTIONS <= MAX_TECHNICAL_QUESTIONS)%Z ->
   (MIN_TECHNICAL_QUESTIONS <= Z.of_nat (length questions)
    <= MAX_TECHNICAL_QUESTIONS)%Z).
Proof.
  intros _ _ Hstate Hexit Hacc Hreply Hmin questions.
  split; [|split].
  - unfold process_message. rewrite Hexit.
    unfold bind at 1. unfold get_self at 1. rewrite Hstate.
    rewrite (collect_tech_stack_accepted _ _ Hacc).
    unfold question_prompt_of, with_tech_stack, asking in *.
    cbv [bind get_self set_candidate_data try_except generate_questions
         chat_send].
    cbn [chat state candidate_data technical_questions current_question_index].
    rewrite Hreply.
    apply Z.ltb_ge in Hmin. rewrite Hmin. reflexivity.
  - unfold questions. apply Forall_map.
    pose proof (parse_questions_long reply) as Hlong.
    unfold slice_to.
    destruct (_ <? _)%Z; apply Forall_take;
      (eapply Forall_impl; [exact Hlong|]); intros q Hq; now split.
  - intros Hmax Horder. unfold questions.
    rewrite length_map, slice_to_length by assumption. lia.
Qed.

End Questions.

Lemma failed_request_uses_general_questions_witness :
  let self := mkChatbot [] COLLECT_TECH_STACK (<["name" := VStr "Ada"]> ∅) [] 0 in
  process_message (H := Scripted.runtime [None]) "Python, Django" self =
  (Ok (questions_intro "Python, Django"),
   asking (H := Scripted.runtime [None]) self "Python, Django" None
          fallback_questions,
   [ASK_TECHNICAL_QUESTIONS]) /\
  length fallback_questions = 5.
Proof.
  exact (failed_request_uses_general_questions (H := Scripted.runtime [None])
           (mkChatbot [] COLLECT_TECH_STACK (<["name" := VStr "Ada"]> ∅) [] 0)
           "Python, Django" eq_refl eq_refl eq_refl eq_refl eq_refl).
Defined.

Lemma generated_questions_are_kept_witness :
  let reply :=
    PyStr.concat
      ["1. What is a closure in JavaScript?"; PyStr.nl;
       "2. Explain the GIL in Python."; PyStr.nl;
       "3. How does Django route a request?"; PyStr.nl;
       "4. What is an index in PostgreSQL?"; PyStr.nl;
       "5. How do you test a Django view?"; PyStr.nl;
       "6. What is a generator in Python?"] in
  let self := mkChatbot [] COLLECT_TECH_STACK (<["name" := VStr "Ada"]> ∅) [] 0 in
  let questions :=
    map (mkQuestion "AI-Generated") (slice_to 7 (parse_questions reply)) in
  process_message (H := Scripted.runtime [Some reply]) "Python, Django" self =
  (Ok (questions_intro "Python, Django"),
   asking (H := Scripted.runtime [Some reply]) self "Python, Django"
          (Some reply) questions,
   [ASK_TECHNICAL_QUESTIONS]) /\
  Forall (fun q => 10 < PyStr.len (question q) /\
                   technology q = "AI-Generated") questions /\
  ((0 <= 7)%Z -> (5 <= 7)%Z -> (5 <= Z.of_nat (length questions) <= 7)%Z).
Proof.
  intros reply self questions.
  refine (generated_questions_are_kept (H := Scripted.runtime [Some reply])
            self "Python, Django" reply _ _ _ _ _ _ _).
  - reflexivity.
  - reflexivity.
  - reflexivity.
  - reflexivity.
  - reflexivity.
  - reflexivity.
  - vm_compute. discriminate.
Defined.

(** ** The first question and the answers *)

Section Answers.

Context `{Runtime}.

(** X12.  At the first question, a message that is one of the words of
    readiness (whatever its case and the blanks around it) shows the first
    question and is not taken as an answer: the object is as before and the
    chat session is not called.  With no question at all the reply is
    ["No more questions."]. *)
Theorem ready_shows_first_question (self : HiringAssistantChatbot)
    (user_message : string) :
  state self = ASK_TECHNICAL_QUESTIONS ->
  current_question_index self = 0 ->
  check_exit_intent user_message = false ->
  In (PyStr.lower (PyStr.strip user_message)) ready_words ->
  process_message user_message self =
  (Ok (match technical_questions self with
       | first :: _ =>
           Prompts.get_technical_question_prompt
             (question first) (technology first) 1
             (length (technical_questions self))
       | [] => "No more questions."
       end),
   self, []).
Proof.
  intros Hstate Hindex Hexit Hready.
  assert (Hword : existsb (String.eqb (PyStr.lower (PyStr.strip user_message)))
                          ready_words = true).
  { apply existsb_exists. eexists. split; [exact Hready|].
    apply String.eqb_refl. }
  unfold process_message. rewrite Hexit.
  unfold bind at 1. unfold get_self at 1.
  rewrite Hstate, Hindex, Hword. cbn [Nat.eqb andb].
  unfold _show_current_question. run_method. rewrite Hindex.
  destruct (technical_questions self) as [|first rest]; reflexivity.
Qed.

(** X13.  An ASCII answer given when no question is left (the index is not
    below the number of questions, as with an empty list of questions)
    raises [IndexError] out of [process_message]; the object is as
    before. *)
Theorem answer_without_question_raises (self : HiringAssistantChatbot)
    (answer : string) :
  PyStr.isascii answer = true ->
  taken_as_answer self answer ->
  length (technical_questions self) <= current_question_index self ->
  process_message answer self = (Raise IndexError, self, []).
Proof.
  intros _ Htaken Hnone. rewrite (process_answer _ _ Htaken).
  unfold _handle_technical_question. run_method.
  now rewrite (proj2 (lookup_ge_None _ _) Hnone).
Qed.

Lemma conclude_keeps_key (self : HiringAssistantChatbot) (key : string) :
  key <> "screening_decision" ->
  key <> "screening_reasoning" ->
  let '(_, after, _) := _conclude_conversation self in
  candidate_data after !! key = candidate_data self !! key.
Proof.
  intros Hd Hr. rewrite conclude_unfold. unfold concluded, with_state.
  repeat case_innermost; cbn [candidate_data]; try reflexivity.
  now rewrite !lookup_insert_ne by congruence.
Qed.

(** X14.  Every ASCII answer is recorded, whether its evaluation succeeds or
    fails and whether it is the last one or not: the call returns a text,
    the index advances by one, the questions are as before, and the list of
    answers gets exactly one more entry, at its end, with the current
    question and the trimmed answer. *)
Theorem every_answer_is_recorded (self : HiringAssistantChatbot)
    (answer : string) (current_q : Question) (tech_stack : Value)
    (entries : list QA) :
  PyStr.isascii answer = true ->
  taken_as_answer self answer ->
  technical_questions self !! current_question_index self = Some current_q ->
  candidate_data self !! "tech_stack" = Some tech_stack ->
  candidate_data self !! "technical_qa" = Some (VList entries) ->
  let '(r, after, _) := process_message answer self in
  (exists text, r = Ok text) /\
  current_question_index after = current_question_index self + 1 /\
  technical_questions after = technical_questions self /\
  exists entry,
    candidate_data after !! "technical_qa" = Some (VList (entries ++ [entry])) /\
    qa_question entry = question current_q /\
    qa_technology entry = technology current_q /\
    qa_answer entry = PyStr.strip answer.
Proof.
  intros _ Htaken Hq Hstack Hqa. rewrite (process_answer _ _ Htaken).
  unfold _handle_technical_question, evaluate_answer, record_unevaluated.
  run_method. rewrite Hq, Hstack.
  destruct (send_message _ _) as [text|].
  - destruct (parse_evaluation_ok (PyStr.split "010" text)
                "N/A" "Thank you for your answer.") as (score & ack & ->).
    cbn [chat state candidate_data technical_questions current_question_index].
    rewrite Hqa.
    cbn [chat state candidate_data technical_questions current_question_index].
    destruct (technical_questions self !! (current_question_index self + 1)).
    + cbn [chat state candidate_data technical_questions
           current_question_index].
      split; [now eexists|]. repeat split.
      eexists. rewrite lookup_insert_eq. repeat split; reflexivity.
    + cbn [chat state candidate_data technical_questions
           current_question_index].
      rewrite lookup_insert_eq.
      match goal with
      | |- context [_conclude_conversation ?start] =>
          pose proof (conclude_step start) as Hc;
          pose proof (conclude_keeps_key start "technical_qa"
                        ltac:(congruence) ltac:(congruence)) as Hk;
          destruct (_conclude_conversation start) as [[r after] w]
      end.
      cbn [chat state candidate_data technical_questions
           current_question_index] in *.
      destruct Hc as ((text' & ->) & _ & _ & Hqs & Hidx & _).
      split; [now eexists|]. repeat split; [exact Hidx|exact Hqs|].
      eexists. rewrite Hk, lookup_insert_eq. repeat split; reflexivity.
  - cbn [chat state candidate_data technical_questions current_question_index].
    rewrite Hqa.
    cbn [chat state candidate_data technical_questions current_question_index].
    destruct (technical_questions self !! (current_question_index self + 1)).
    + cbn [chat state candidate_data technical_questions
           current_question_index].
      split; [now eexists|]. repeat split.
      eexists. rewrite lookup_insert_eq. repeat split; reflexivity.
    + match goal with
      | |- context [_conclude_conversation ?start] =>
          pose proof (conclude_step start) as Hc;
          pose proof (conclude_keeps_key start "technical_qa"
                        ltac:(congruence) ltac:(congruence)) as Hk;
          destruct (_conclude_conversation start) as [[r after] w]
      end.
      cbn [chat state candidate_data technical_questions
           current_question_index] in *.
      destruct Hc as ((text' & ->) & _ & _ & Hqs & Hidx & _).
      split; [now eexists|]. repeat split; [exact Hidx|exact Hqs|].
      eexists. rewrite Hk, lookup_insert_eq. repeat split; reflexivity.
Qed.

(** X15.  The greeting is the one call that is not guarded: in [GREETING],
    when the chat session fails, the exception leaves [process_message] and
    the state stays [GREETING]; when it answers, the answer is the reply
    and the state becomes [COLLECT_NAME].  Nothing is stored either way. *)
Theorem greeting_failure_is_raised (self : HiringAssistantChatbot)
    (user_message : string) :
  state self = GREETING ->
  check_exit_intent user_message = false ->
  process_message user_message self =
  match send_message (chat self) Prompts.get_greeting_prompt with
  | Some text =>
      (Ok text,
       mkChatbot (chat self ++ [(Prompts.get_greeting_prompt, Some text)])%list
                 COLLECT_NAME (candidate_data self)
                 (technical_questions self) (current_question_index self),
       [COLLECT_NAME])
  | None =>
      (Raise ProviderError,
       mkChatbot (chat self ++ [(Prompts.get_greeting_prompt, None)])%list
                 GREETING (candidate_data self)
                 (technical_questions self) (current_question_index self),
       [])
  end.
Proof.
  intros Hstate Hexit. unfold process_message. rewrite Hexit.
  unfold bind at 1. unfold get_self at 1. rewrite Hstate.
  unfold get_greeting. run_method.
  destruct (send_message _ _); rewrite ?Hstate; reflexivity.
Qed.

End Answers.

Lemma ready_shows_first_question_witness :
  let first := mkQuestion "General" "How do you approach learning new technologies?" in
  let self :=
    mkChatbot [] ASK_TECHNICAL_QUESTIONS
      (<["technical_qa" := VList []]> (<["tech_stack" := VStr "Python"]> ∅))
      [first; mkQuestion "General" "How do you ensure code quality in your projects?"]
      0 in
  process_message (H := Scripted.runtime []) "  Ready " self =
  (Ok (Prompts.get_technical_question_prompt
         (question first) (technology first) 1 2),
   self, []).
Proof.
  intros first self.
  refine (ready_shows_first_question (H := Scripted.runtime [])
            self "  Ready " _ _ _ _).
  - reflexivity.
  - reflexivity.
  - reflexivity.
  - do 2 right. left. reflexivity.
Defined.

Lemma answer_without_question_raises_witness :
  let self :=
    mkChatbot [] ASK_TECHNICAL_QUESTIONS
      (<["technical_qa" := VList []]> (<["tech_stack" := VStr "Python"]> ∅))
      [] 0 in
  process_message (H := Scripted.runtime []) "I write unit tests" self =
  (Raise IndexError, self, []).
Proof.
  intros self.
  refine (answer_without_question_raises (H := Scripted.runtime [])
            self "I write unit tests" _ _ _).
  - reflexivity.
  - repeat split; reflexivity.
  - simpl. lia.
Defined.

Lemma every_answer_is_recorded_witness :
  let current_q :=
    mkQuestion "General" "How do you approach learning new technologies?" in
  let self :=
    mkChatbot [] ASK_TECHNICAL_QUESTIONS
      (<["technical_qa" := VList []]> (<["tech_stack" := VStr "Python"]> ∅))
      [current_q;
       mkQuestion "General" "How do you ensure code quality in your projects?"]
      0 in
  let '(r, after, _) :=
    process_message (H := Scripted.runtime [Some "SCORE: 8/10"])
      " I read the manual. " self in
  (exists text, r = Ok text) /\
  current_question_index after = 0 + 1 /\
  technical_questions after = technical_questions self /\
  exists entry,
    candidate_data after !! "technical_qa" = Some (VList ([] ++ [entry])) /\
    qa_question entry = question current_q /\
    qa_technology entry = technology current_q /\
    qa_answer entry = PyStr.strip " I read the manual. ".
Proof.
  intros current_q self.
  refine (every_answer_is_recorded (H := Scripted.runtime [Some "SCORE: 8/10"])
            self " I read the manual. " current_q (VStr "Python") [] _ _ _ _ _).
  - reflexivity.
  - repeat split; reflexivity.
  - reflexivity.
  - reflexivity.
  - reflexivity.
Defined.

Lemma greeting_failure_is_raised_witness :
  process_message (H := Scripted.runtime [None]) "hello" fresh_chatbot =
  (Raise ProviderError,
   mkChatbot [(Prompts.get_greeting_prompt, None)] GREETING ∅ [] 0,
   []).
Proof.
  exact (greeting_failure_is_raised (H := Scripted.runtime [None])
           fresh_chatbot "hello" eq_refl eq_refl).
Defined.

(** ** Reversal, spans and the case of letters *)

Lemma sapp_nil_r (s : string) : s ++ "" = s.
Proof.
  induction s as [|a s IH]; [reflexivity|].
  change (String a s ++ "") with (String a (s ++ "")). now rewrite IH.
Qed.

Lemma sapp_assoc (s t u : string) : (s ++ t) ++ u = s ++ t ++ u.
Proof.
  induction s as [|a s IH]; [reflexivity|].
  change (String a (s ++ t) ++ u = String a (s ++ t ++ u)).
  change (String a ((s ++ t) ++ u) = String a (s ++ t ++ u)).
  now rewrite IH.
Qed.

Lemma srev_onto_spec (s : string) :
  forall acc, PyStr.srev_onto acc s = PyStr.srev s ++ acc.
Proof.
  unfold PyStr.srev. induction s as [|a s IH]; intros acc; simpl.
  - reflexivity.
  - rewrite (IH (String a acc)), (IH (String a "")).
    now rewrite sapp_assoc.
Qed.

Lemma srev_cons (a : ascii) (s : string) :
  PyStr.srev (String a s) = PyStr.srev s ++ String a "".
Proof. unfold PyStr.srev at 1. simpl. apply srev_onto_spec. Qed.

Lemma srev_app (s t : string) :
  PyStr.srev (s ++ t) = PyStr.srev t ++ PyStr.srev s.
Proof.
  induction s as [|a s IH].
  - change ("" ++ t) with t. change (PyStr.srev "") with "".
    now rewrite sapp_nil_r.
  - change (String a s ++ t) with (String a (s ++ t)).
    now rewrite !srev_cons, IH, sapp_assoc.
Qed.









Lemma lower_upper_char (a : ascii) :
  PyStr.lower_char (PyStr.upper_char a) = PyStr.lower_char a.
Proof. destruct a as [[] [] [] [] [] [] [] []]; reflexivity. Qed.

Lemma lower_lower_char (a : ascii) :
  PyStr.lower_char (PyStr.lower_char a) = PyStr.lower_char a.
Proof. destruct a as [[] [] [] [] [] [] [] []]; reflexivity. Qed.

Lemma lower_upper (s : string) :
  PyStr.lower (PyStr.upper s) = PyStr.lower s.
Proof.
  unfold PyStr.lower, PyStr.upper.
  induction s as [|a s IH]; simpl; [reflexivity|].
  now rewrite lower_upper_char, IH.
Qed.

Lemma lower_lower (s : string) :
  PyStr.lower (PyStr.lower s) = PyStr.lower s.
Proof.
  unfold PyStr.lower.
  induction s as [|a s IH]; simpl; [reflexivity|].
  now rewrite lower_lower_char, IH.
Qed.

(** X16.  The exit intent does not depend on the case of the letters: an
    ASCII message, its upper-case form and its lower-case form are detected
    alike. *)
Theorem exit_intent_ignores_case (message : string) :
  PyStr.isascii message = true ->
  check_exit_intent (PyStr.upper message) = check_exit_intent message /\
  check_exit_intent (PyStr.lower message) = check_exit_intent message.
Proof.
  intros _. unfold check_exit_intent. now rewrite lower_upper, lower_lower.
Qed.

Lemma exit_intent_ignores_case_witness :
  check_exit_intent (PyStr.upper "Ok, Goodbye!") =
  check_exit_intent "Ok, Goodbye!" /\
  check_exit_intent (PyStr.lower "Ok, Goodbye!") =
  check_exit_intent "Ok, Goodbye!".
Proof. exact (exit_intent_ignores_case "Ok, Goodbye!" eq_refl). Defined.

(** ** The email address *)

Lemma drop_while_head (p : ascii -> bool) (s : string) :
  match PyStr.drop_while p s with
  | String c _ => p c = false
  | EmptyString => True
  end.
Proof.
  induction s as [|a s IH]; simpl; [exact I|].
  destruct (p a) eqn:Hpa; [exact IH|exact Hpa].
Qed.





(** ** The numbering of a question *)

Lemma drop_while_keeps_last (p : ascii -> bool) (c : ascii) (s : string) :
  p c = false ->
  exists kept, PyStr.drop_while p (s ++ String c "") = kept ++ String c "".
Proof.
  intros Hc. induction s as [|a s IH].
  - exists "". simpl. now rewrite Hc.
  - change (String a s ++ String c "") with (String a (s ++ String c "")).
    cbn [PyStr.drop_while]. destruct (p a); [exact IH|].
    now exists (String a s).
Qed.

Lemma strip_keeps_head (c : ascii) (s : string) :
  PyStr.is_space c = false ->
  exists rest, PyStr.strip (String c s) = String c rest.
Proof.
  intros Hc. unfold PyStr.strip, PyStr.lstrip, PyStr.rstrip.
  cbn [PyStr.drop_while]. rewrite Hc, srev_cons.
  destruct (drop_while_keeps_last PyStr.is_space c (PyStr.srev s) Hc)
    as [kept ->].
  rewrite srev_app. now exists (PyStr.srev kept).
Qed.

(** X18.  The numbering is removed entirely: a question kept from an ASCII
    line of the reply starts with a character that is not a digit, a dot, a
    closing parenthesis, a hyphen, a star or whitespace. *)
Theorem kept_question_has_no_numbering (raw q : string) :
  PyStr.isascii raw = true ->
  parse_question_line raw = Some q ->
  exists c rest, q = String c rest /\ numbering_char c = false.
Proof.
  intros _. unfold parse_question_line.
  destruct (_ && _); [|discriminate].
  pose proof (drop_while_head numbering_char (PyStr.strip raw)) as Hhead.
  destruct (PyStr.drop_while numbering_char (PyStr.strip raw))
    as [|c text] eqn:Hdrop.
  - discriminate.
  - assert (Hspace : PyStr.is_space c = false).
    { unfold numbering_char in Hhead.
      now apply orb_false_iff in Hhead as [_ Hspace]. }
    destruct (strip_keeps_head c text Hspace) as [rest ->].
    destruct (_ && _); [|discriminate].
    intros [= <-]. now exists c, rest.
Qed.

Lemma kept_question_has_no_numbering_witness :
  exists c rest,
    "Explain the GIL in Python." = String c rest /\ numbering_char c = false.
Proof.
  exact (kept_question_has_no_numbering
           " 12.) - Explain the GIL in Python. " "Explain the GIL in Python."
           eq_refl eq_refl).
Defined.

(** ** Saving and loading *)

Lemma save_candidate_ok (now1 now2 : DataHandler.DateTime) (ref : nat)
    (w after : DataHandler.World) (d : gmap string Value) (path : string) :
  DataHandler.heap w !! ref = Some d ->
  DataHandler.save_candidate now1 now2 ref w = (Ok path, after) ->
  exists name,
    default (VStr "unknown") (d !! "name") = VStr name /\
    path = record_path name now2 /\
    DataHandler.write_file path
      (DataHandler.Document (DataHandler.dict_to_json (stamped now1 d)))
      (DataHandler.fs w) = Ok (DataHandler.fs after) /\
    DataHandler.heap after = <[ref := stamped now1 d]> (DataHandler.heap w).
Proof.
  intros Hd. unfold DataHandler.save_candidate. rewrite Hd.
  fold (stamped now1 d).
  assert (Hname : stamped now1 d !! "name" = d !! "name")
    by (unfold stamped; now rewrite lookup_insert_ne).
  rewrite Hname.
  destruct (default (VStr "unknown") (d !! "name")) as [name|l];
    [|discriminate].
  fold (name_slug name). fold (record_path name now2).
  cbn [DataHandler.heap DataHandler.fs].
  destruct (DataHandler.write_file _ _ _) as [files|e] eqn:Hwrite;
    [|discriminate].
  intros [= <- <-]. exists name. auto.
Qed.

Lemma write_file_ok (path : string) (c : DataHandler.Content)
    (files written : gmap string DataHandler.Node) :
  DataHandler.write_file path c files = Ok written ->
  written = <[path := DataHandler.Regular c]> files /\
  files !! DataHandler.dirname path = Some DataHandler.Directory /\
  files !! path <> Some DataHandler.Directory /\
  files !! path <> Some DataHandler.Unreadable.
Proof.
  unfold DataHandler.write_file.
  destruct (files !! path) as [[| | |c0]|] eqn:Hpath; try discriminate;
    destruct (files !! DataHandler.dirname path) as [[| | |c1]|] eqn:Hdir;
    try discriminate; intros [= <-]; repeat split; congruence.
Qed.

(** X19.  Round trip: the file [save_candidate] has written loads back, by
    [load_candidate] on the path returned, as the document of the dictionary
    with its [submission_time]; that document is not empty, so the listing
    of the candidates does not skip it. *)
Theorem saved_record_loads_back (now1 now2 : DataHandler.DateTime) (ref : nat)
    (w after : DataHandler.World) (d : gmap string Value) (path : string) :
  DataHandler.heap w !! ref = Some d ->
  DataHandler.save_candidate now1 now2 ref w = (Ok path, after) ->
  DataHandler.load_candidate path (DataHandler.fs after) =
  Ok (Some (DataHandler.dict_to_json (stamped now1 d))) /\
  DataHandler.truthy (DataHandler.dict_to_json (stamped now1 d)) = true.
Proof.
  intros Hd Hsave.
  destruct (save_candidate_ok _ _ _ _ _ _ _ Hd Hsave)
    as (name & _ & _ & Hwrite & _).
  apply write_file_ok in Hwrite as (-> & _). split.
  - unfold DataHandler.load_candidate, DataHandler.read_json.
    now rewrite lookup_insert_eq.
  - unfold DataHandler.truthy, DataHandler.dict_to_json, stamped.
    rewrite map_size_fmap. apply negb_true_iff, Nat.eqb_neq.
    intros Hsize. apply map_size_empty_iff in Hsize.
    now apply insert_non_empty in Hsize.
Qed.

(** X20.  The file name has the name of the candidate and the second of the
    clock only: a second candidate whose name gives the same slug, saved
    within the same second, is written to the same path; the file then
    holds the second record, and no file is added. *)
Theorem same_name_same_second_overwrites
    (now1 now2 now3 now4 : DataHandler.DateTime) (ref1 ref2 : nat)
    (w w1 : DataHandler.World) (d1 d2 : gmap string Value)
    (name1 name2 path : string) :
  DataHandler.heap w !! ref1 = Some d1 ->
  d1 !! "name" = Some (VStr name1) ->
  DataHandler.save_candidate now1 now2 ref1 w = (Ok path, w1) ->
  DataHandler.heap w1 !! ref2 = Some d2 ->
  d2 !! "name" = Some (VStr name2) ->
  name_slug name2 = name_slug name1 ->
  DataHandler.strftime now4 = DataHandler.strftime now2 ->
  exists w2,
    DataHandler.save_candidate now3 now4 ref2 w1 = (Ok path, w2) /\
    DataHandler.fs w2 !! path =
    Some (DataHandler.Regular
            (DataHandler.Document
               (DataHandler.dict_to_json (stamped now3 d2)))) /\
    dom (DataHandler.fs w2) = dom (DataHandler.fs w1).
Proof.
  intros Hd1 Hn1 Hsave Hd2 Hn2 Hslug Hstamp.
  destruct (save_candidate_ok _ _ _ _ _ _ _ Hd1 Hsave)
    as (name & Hname & -> & Hwrite & _).
  rewrite Hn1 in Hname. injection Hname as <-.
  apply write_file_ok in Hwrite as (Hfiles & Hdir & Hnotdir & _).
  assert (Hother : DataHandler.dirname (record_path name1 now2)
                   <> record_path name1 now2).
  { intros Heq. rewrite Heq in Hdir. contradiction. }
  unfold DataHandler.save_candidate. rewrite Hd2.
  fold (stamped now3 d2).
  assert (Hname : stamped now3 d2 !! "name" = Some (VStr name2))
    by (unfold stamped; now rewrite lookup_insert_ne).
  rewrite Hname.
  change (default (VStr "unknown") (Some (VStr name2))) with (VStr name2).
  cbv beta iota zeta.
  change (PyStr.replace " " "_" (PyStr.lower name2)) with (name_slug name2).
  rewrite Hslug, Hstamp.
  fold (record_path name1 now2).
  cbn [DataHandler.heap DataHandler.fs].
  unfold DataHandler.write_file. rewrite Hfiles.
  rewrite lookup_insert_eq, lookup_insert_ne, Hdir by congruence.
  eexists. split; [reflexivity|]. cbn [DataHandler.fs]. split.
  - now rewrite lookup_insert_eq.
  - apply dom_insert_lookup_L. now rewrite lookup_insert_eq.
Qed.

Lemma saved_record_loads_back_witness :
  let now := DataHandler.mkDateTime 2026 11 3 17 31 5 0 in
  let record : gmap string Value :=
    <["status" := VStr "screened"]> (<["name" := VStr "Ada Lovelace"]> ∅) in
  let w :=
    DataHandler.mkWorld (<[0 := record]> ∅)
      (<["data/candidates" := DataHandler.Directory]> ∅) in
  let path := "data/candidates/ada_lovelace_20261103_173105.json" in
  let after := snd (DataHandler.save_candidate now now 0 w) in
  DataHandler.save_candidate now now 0 w = (Ok path, after) /\
  DataHandler.load_candidate path (DataHandler.fs after) =
  Ok (Some (DataHandler.dict_to_json (stamped now record))) /\
  DataHandler.truthy (DataHandler.dict_to_json (stamped now record)) = true.
Proof.
  intros now record w path after.
  assert (Hrecord : DataHandler.heap w !! 0 = Some record)
    by (vm_compute; reflexivity).
  assert (Hsave : DataHandler.save_candidate now now 0 w = (Ok path, after))
    by (vm_compute; reflexivity).
  exact (conj Hsave
           (saved_record_loads_back now now 0 w after record path
              Hrecord Hsave)).
Defined.

Lemma same_name_same_second_overwrites_witness :
  let now := DataHandler.mkDateTime 2026 11 3 17 31 5 0 in
  let later := DataHandler.mkDateTime 2026 11 3 17 31 5 1234 in
  let first : gmap string Value := <["name" := VStr "Ada Lovelace"]> ∅ in
  let second : gmap string Value :=
    <["email" := VStr "other@example.com"]>
      (<["name" := VStr "ada lovelace"]> ∅) in
  let w :=
    DataHandler.mkWorld (<[1 := second]> (<[0 := first]> ∅))
      (<["data/candidates" := DataHandler.Directory]> ∅) in
  let path := "data/candidates/ada_lovelace_20261103_173105.json" in
  let w1 := snd (DataHandler.save_candidate now now 0 w) in
  DataHandler.save_candidate now now 0 w = (Ok path, w1) /\
  exists w2,
    DataHandler.save_candidate later later 1 w1 = (Ok path, w2) /\
    DataHandler.fs w2 !! path =
    Some (DataHandler.Regular
            (DataHandler.Document
               (DataHandler.dict_to_json (stamped later second)))) /\
    dom (DataHandler.fs w2) = dom (DataHandler.fs w1).
Proof.
  intros now later first second w path w1.
  assert (Hfirst : DataHandler.heap w !! 0 = Some first)
    by (vm_compute; reflexivity).
  assert (Hsave : DataHandler.save_candidate now now 0 w = (Ok path, w1))
    by (vm_compute; reflexivity).
  assert (Hsecond : DataHandler.heap w1 !! 1 = Some second)
    by (vm_compute; reflexivity).
  assert (Hslug : name_slug "ada lovelace" = name_slug "Ada Lovelace")
    by (vm_compute; reflexivity).
  assert (Hclock : DataHandler.strftime later = DataHandler.strftime now)
    by (vm_compute; reflexivity).
  exact (conj Hsave
           (same_name_same_second_overwrites now now later later 0 1 w w1
              first second "Ada Lovelace" "ada lovelace" path
              Hfirst eq_refl Hsave Hsecond eq_refl Hslug Hclock)).
Defined.

(** ** The page saves the record *)

Lemma create_candidate_record_keys
    (name email phone experience position location tech_stack : Value)
    (technical_qa : option Value) (now1 : DataHandler.DateTime) :
  dom (stamped now1
         (DataHandler.create_candidate_record
            name email phone experience position location tech_stack
            technical_qa)) = record_keys.
Proof.
  unfold stamped, DataHandler.create_candidate_record, record_keys.
  rewrite !dom_insert_L, dom_empty_L.
  apply set_eq. intros key.
  rewrite !elem_of_union, !elem_of_singleton, elem_of_empty. tauto.
Qed.

(** X21.  The record is saved at most once.  [save_candidate_data] never
    touches the chatbot or the transcript; a path is returned only for a
    session not yet saved, whose conversation is complete and whose data has
    a name, and then the saved flag is set, so that the next attempt returns
    [None] and changes nothing; when nothing is saved the session and the
    world are as before; when the save raises the flag stays unset. *)
Theorem record_is_saved_at_most_once
    (now1 now2 now3 now4 : DataHandler.DateTime)
    (st : App.SessionState) (w : DataHandler.World) :
  let '(r, st1, w1) := App.save_candidate_data now1 now2 st w in
  App.chatbot st1 = App.chatbot st /\
  App.messages st1 = App.messages st /\
  match r with
  | Ok (Some path) =>
      App.data_saved st = false /\
      is_conversation_complete (App.chatbot st) = true /\
      is_Some (candidate_data (App.chatbot st) !! "name") /\
      App.data_saved st1 = true /\
      App.save_candidate_data now3 now4 st1 w1 = (Ok None, st1, w1)
  | Ok None => st1 = st /\ w1 = w
  | Raise _ => st1 = st /\ DataHandler.fs w1 = DataHandler.fs w
  end.
Proof.
  unfold App.save_candidate_data.
  destruct (App.data_saved st) eqn:Hsaved; cbn [negb andb]; [auto|].
  destruct (is_conversation_complete (App.chatbot st)) eqn:Hdone; [|auto].
  unfold get_candidate_data.
  destruct (negb _ && _) eqn:Hname; [|auto].
  apply andb_true_iff in Hname as [_ Hname].
  destruct (candidate_data (App.chatbot st) !! "name") as [name|] eqn:Hn;
    [|discriminate Hname].
  cbv zeta.
  match goal with
  | |- context [DataHandler.save_candidate now1 now2 ?ref ?world] =>
      destruct (DataHandler.save_candidate now1 now2 ref world)
        as [[path|e] w1] eqn:Hsave
  end.
  - cbn [App.chatbot App.messages App.data_saved negb andb].
    repeat split; eauto.
  - repeat split; auto.
    unfold DataHandler.save_candidate in Hsave.
    cbn [DataHandler.heap DataHandler.fs] in Hsave.
    rewrite lookup_insert_eq in Hsave.
    repeat match type of Hsave with
           | match ?x with _ => _ end = _ => destruct x
           end;
      try discriminate Hsave; injection Hsave as _ <-; reflexivity.
Qed.

(** X22.  The persisted record has exactly ten keys: the seven collected
    fields, [technical_qa], [status], which is ["screened"], and
    [submission_time].  The name is the one the engine collected; the
    screening decision and its reasoning, which the engine stored in the
    candidate data, are not part of the record. *)
Theorem persisted_record_has_ten_keys (now1 now2 : DataHandler.DateTime)
    (st st1 : App.SessionState) (w w1 : DataHandler.World) (path : string) :
  App.save_candidate_data now1 now2 st w = (Ok (Some path), st1, w1) ->
  exists record : gmap string Value,
    DataHandler.fs w1 !! path =
    Some (DataHandler.Regular
            (DataHandler.Document (DataHandler.dict_to_json record))) /\
    dom record = record_keys /\
    record !! "status" = Some (VStr "screened") /\
    record !! "name" = candidate_data (App.chatbot st) !! "name" /\
    record !! "screening_decision" = None /\
    record !! "screening_reasoning" = None.
Proof.
  unfold App.save_candidate_data.
  destruct (negb (App.data_saved st) && _); [|discriminate].
  unfold get_candidate_data.
  destruct (negb _ && _) eqn:Hname; [|discriminate].
  apply andb_true_iff in Hname as [_ Hname].
  destruct (candidate_data (App.chatbot st) !! "name") as [name|] eqn:Hn;
    [|discriminate Hname].
  cbv zeta.
  match goal with
  | |- context [DataHandler.save_candidate now1 now2 ?ref ?world] =>
      destruct (DataHandler.save_candidate now1 now2 ref world)
        as [[saved|e] after] eqn:Hsave; [|discriminate];
      assert (Hrecord : DataHandler.heap world !! ref = Some _)
        by apply lookup_insert_eq
  end.
  intros [= -> <- ->].
  destruct (save_candidate_ok _ _ _ _ _ _ _ Hrecord Hsave)
    as (who & _ & _ & Hwrite & _).
  apply write_file_ok in Hwrite as (-> & _).
  eexists. split; [apply lookup_insert_eq|].
  split; [apply create_candidate_record_keys|].
  unfold stamped, DataHandler.create_candidate_record.
  repeat split; now simplify_map_eq.
Qed.

Lemma persisted_record_has_ten_keys_witness :
  let now := DataHandler.mkDateTime 2026 11 3 17 31 5 0 in
  let st :=
    App.mkSession
      (mkChatbot [] ENDED
         (<["screening_decision" := VStr "PROCEED"]>
            (<["name" := VStr "Ada Lovelace"]> ∅)) [] 0)
      [] true false in
  let w :=
    DataHandler.mkWorld ∅ (<["data/candidates" := DataHandler.Directory]> ∅) in
  let path := "data/candidates/ada_lovelace_20261103_173105.json" in
  let st1 := App.mkSession (App.chatbot st) [] true true in
  let w1 := snd (App.save_candidate_data now now st w) in
  App.save_candidate_data now now st w = (Ok (Some path), st1, w1) /\
  exists record : gmap string Value,
    DataHandler.fs w1 !! path =
    Some (DataHandler.Regular
            (DataHandler.Document (DataHandler.dict_to_json record))) /\
    dom record = record_keys /\
    record !! "status" = Some (VStr "screened") /\
    record !! "name" = candidate_data (App.chatbot st) !! "name" /\
    record !! "screening_decision" = None /\
    record !! "screening_reasoning" = None.
Proof.
  intros now st w path st1 w1.
  assert (Hsave :
            App.save_candidate_data now now st w = (Ok (Some path), st1, w1))
    by (vm_compute; reflexivity).
  exact (conj Hsave
           (persisted_record_has_ten_keys now now st st1 w w1 path Hsave)).
Defined.

(** ** Saving and listing *)

Lemma drop_append (p s : string) : PyStr.drop (PyStr.len p) (p ++ s) = s.
Proof. induction p as [|a p IH]; [reflexivity|exact IH]. Qed.

Lemma endswith_append (pre p : string) :
  PyStr.endswith p (pre ++ p) = true.
Proof.
  unfold PyStr.endswith. rewrite srev_app. apply startswith_append.
Qed.

Lemma collect_candidates_lists (files : gmap string DataHandler.Node)
    (names : list string) :
  forall (candidates listed : list DataHandler.Json) (j : DataHandler.Json),
    DataHandler.collect_candidates names files candidates = Ok listed ->
    In j candidates \/
    (exists filename, In filename names /\ record_of files filename = Some j) ->
    In j listed.
Proof.
  induction names as [|filename names IH]; intros candidates listed j.
  - cbn [DataHandler.collect_candidates]. intros [= <-] [Hin|(f & [] & _)].
    exact Hin.
  - cbn [DataHandler.collect_candidates].
    intros Hrun Hj.
    assert (Hrest :
              forall acc,
                DataHandler.collect_candidates names files acc = Ok listed ->
                (In j candidates -> In j acc) ->
                (record_of files filename = Some j -> In j acc) ->
                In j listed).
    { intros acc Hacc Hold Hnew. apply (IH acc listed j Hacc).
      destruct Hj as [Hin|(f & [<-|Hf] & Hrec)]; eauto. }
    unfold record_of in Hrest at 1.
    unfold DataHandler.load_candidate, DataHandler.read_json in Hrun.
    destruct (PyStr.endswith ".json" filename);
      [|apply (Hrest _ Hrun); [auto|discriminate]].
    destruct (files !! DataHandler.join DataHandler.CANDIDATES_DIR filename)
      as [[| | |[j0|]]|]; try discriminate Hrun;
      try (apply (Hrest _ Hrun); [auto|discriminate]).
    destruct (DataHandler.truthy j0).
    + apply (Hrest _ Hrun).
      * intros Hin. apply in_or_app. now left.
      * intros [= <-]. apply in_or_app. right. now left.
    + apply (Hrest _ Hrun); [auto|discriminate].
Qed.

Lemma name_in_join (path filename : string) :
  DataHandler.name_in DataHandler.CANDIDATES_DIR path = Some filename ->
  path = DataHandler.CANDIDATES_DIR ++ "/" ++ filename /\
  DataHandler.join DataHandler.CANDIDATES_DIR filename = path.
Proof.
  unfold DataHandler.name_in.
  destruct (PyStr.startswith _ path) eqn:Hstart; [|discriminate].
  apply startswith_inv in Hstart as [post ->].
  rewrite drop_append.
  destruct (PyStr.nonempty post && _) eqn:Hname; [|discriminate].
  intros [= ->]. split; [reflexivity|].
  apply andb_true_iff in Hname as [Hne Hslash].
  destruct filename as [|c rest]; [discriminate Hne|].
  cbn [PyStr.sany] in Hslash. apply negb_true_iff, orb_false_iff in Hslash
    as [Hc _].
  unfold DataHandler.join. cbn [PyStr.startswith].
  unfold PyStr.eqc in *. rewrite Ascii.eqb_sym, Hc. reflexivity.
Qed.

Lemma saved_file (now1 now2 : DataHandler.DateTime) (ref : nat)
    (w after : DataHandler.World) (d : gmap string Value) (path : string) :
  DataHandler.heap w !! ref = Some d ->
  DataHandler.save_candidate now1 now2 ref w = (Ok path, after) ->
  DataHandler.fs after !! path =
  Some (DataHandler.Regular
          (DataHandler.Document (DataHandler.dict_to_json (stamped now1 d)))) /\
  DataHandler.truthy (DataHandler.dict_to_json (stamped now1 d)) = true /\
  exists name, path = record_path name now2.
Proof.
  intros Hd Hsave.
  destruct (save_candidate_ok _ _ _ _ _ _ _ Hd Hsave)
    as (name & _ & Hpath & Hwrite & _).
  apply write_file_ok in Hwrite as (-> & _). split; [|split].
  - apply lookup_insert_eq.
  - unfold DataHandler.truthy, DataHandler.dict_to_json, stamped.
    rewrite map_size_fmap. apply negb_true_iff, Nat.eqb_neq.
    intros Hsize. apply map_size_empty_iff in Hsize.
    now apply insert_non_empty in Hsize.
  - now exists name.
Qed.

(** X23.  A saved record is listed: when the file written by
    [save_candidate] is directly in the candidates directory (the file name
    has no slash), every listing that [get_all_candidates] then returns
    contains the document of the record. *)
Theorem saved_record_is_listed (now1 now2 : DataHandler.DateTime) (ref : nat)
    (w after : DataHandler.World) (d : gmap string Value)
    (path filename : string) (candidates : list DataHandler.Json) :
  DataHandler.heap w !! ref = Some d ->
  DataHandler.save_candidate now1 now2 ref w = (Ok path, after) ->
  DataHandler.name_in DataHandler.CANDIDATES_DIR path = Some filename ->
  DataHandler.get_all_candidates (DataHandler.fs after) = Ok candidates ->
  In (DataHandler.dict_to_json (stamped now1 d)) candidates.
Proof.
  intros Hd Hsave Hname.
  destruct (saved_file _ _ _ _ _ _ _ Hd Hsave)
    as (Hfile & Htruthy & who & Hpath).
  destruct (name_in_join _ _ Hname) as [Hshape Hjoin].
  unfold DataHandler.get_all_candidates, DataHandler.listdir.
  destruct (DataHandler.fs after !! DataHandler.CANDIDATES_DIR)
    as [[| | |c]|]; try discriminate.
  intros Hrun. apply (collect_candidates_lists _ _ _ _ _ Hrun). right.
  exists filename. split.
  - apply list_elem_of_In, list_elem_of_omap.
    exists (path, DataHandler.Regular
                    (DataHandler.Document
                       (DataHandler.dict_to_json (stamped now1 d)))).
    split; [now apply elem_of_map_to_list|exact Hname].
  - unfold record_of. rewrite Hjoin, Hfile, Htruthy.
    assert (Hjson : PyStr.endswith ".json" filename = true); [|now rewrite Hjson].
    rewrite Hshape in Hpath. unfold record_path, DataHandler.join in Hpath.
    set (stem := name_slug who ++ "_" ++ DataHandler.strftime now2) in *.
    assert (Hfn : name_slug who ++ "_" ++ DataHandler.strftime now2 ++ ".json"
                  = stem ++ ".json")
      by (unfold stem; now rewrite !sapp_assoc).
    rewrite Hfn in Hpath.
    destruct (PyStr.startswith "/" (stem ++ ".json")) eqn:Hroot.
    + apply startswith_inv in Hroot as [post Hroot].
      rewrite Hroot in Hpath. discriminate Hpath.
    + cbn in Hpath. injection Hpath as Heq.
      change (filename = stem ++ ".json") in Heq.
      rewrite Heq. apply endswith_append.
Qed.


Lemma saved_record_is_listed_witness :
  let now := DataHandler.mkDateTime 2026 11 3 17 31 5 0 in
  let record : gmap string Value :=
    <["status" := VStr "screened"]> (<["name" := VStr "Ada Lovelace"]> ∅) in
  let w :=
    DataHandler.mkWorld (<[0 := record]> ∅)
      (<["data/candidates/notes.txt" :=
           DataHandler.Regular DataHandler.Garbage]>
         (<["data/candidates" := DataHandler.Directory]> ∅)) in
  let path := "data/candidates/ada_lovelace_20261103_173105.json" in
  let after := snd (DataHandler.save_candidate now now 0 w) in
  let listed := [DataHandler.dict_to_json (stamped now record)] in
  DataHandler.get_all_candidates (DataHandler.fs after) = Ok listed /\
  In (DataHandler.dict_to_json (stamped now record)) listed.
Proof.
  intros now record w path after listed.
  assert (Hrecord : DataHandler.heap w !! 0 = Some record)
    by (vm_compute; reflexivity).
  assert (Hsave : DataHandler.save_candidate now now 0 w = (Ok path, after))
    by (vm_compute; reflexivity).
  assert (Hname :
            DataHandler.name_in DataHandler.CANDIDATES_DIR path =
            Some "ada_lovelace_20261103_173105.json")
    by (vm_compute; reflexivity).
  assert (Hlist :
            DataHandler.get_all_candidates (DataHandler.fs after) = Ok listed)
    by (vm_compute; reflexivity).
  exact (conj Hlist
           (saved_record_is_listed now now 0 w after record path
              "ada_lovelace_20261103_173105.json" listed
              Hrecord Hsave Hname Hlist)).
Defined.
